(** * BrainFlow Python binding ([python-package/brainflow/board_shim.py])

  A shallow embedding of the binding layer: the exception type, the board
  descriptor, the lazily created library singleton and the [BoardShim]
  methods, written as computations in a state-and-exception monad over an
  explicit process state.  The native library is a black box reached
  through [ctypes]; it is modelled as a state machine whose replies are the
  status code and whatever it writes into the caller's buffers. *)

From Stdlib Require Import ZArith List String Ascii Bool Lia DecimalString.
Import ListNotations.
Local Open Scope string_scope.
Local Open Scope list_scope.
Local Open Scope Z_scope.

(** ** Python enumerations ([enum.Enum]) *)

Module Enum.

(** An enumeration class is its members in definition order. *)
Definition t := list (string * Z).

(** [Cls.NAME.value]: attribute access by member name. *)
Fixpoint by_name (e : t) (name : string) : option Z :=
  match e with
  | [] => None
  | (n, v) :: rest => if String.eqb n name then Some v else by_name rest name
  end.

(** [Cls (value).name]: lookup by value; a later member with an already
    used value is an alias of the first one, whose name is reported. *)
Fixpoint by_value (e : t) (value : Z) : option string :=
  match e with
  | [] => None
  | (n, v) :: rest => if Z.eqb v value then Some n else by_value rest value
  end.

End Enum.

(** ** Exceptions and outcomes *)

Inductive exn : Type :=
| BrainFlowError (detailed_message : string) (exit_code : Z)
| ValueError (message : string)
| AttributeError (message : string)
| IndexError (message : string)
| OSError (message : string)
| UnicodeEncodeError (message : string)
| Exception (message : string).

Inductive outcome (A : Type) : Type :=
| Ok (a : A)
| Raise (e : exn).
Arguments Ok {A} a.
Arguments Raise {A} e.

(** ** Fixed-width integers as [ctypes] and [numpy] see them *)

(** [ctypes.c_int]: a Python integer is reduced to 32 bits, two's
  complement, without an overflow check. *)
Definition c_int (v : Z) : Z := (v + 2 ^ 31) mod 2 ^ 32 - 2 ^ 31.

(** [numpy.int64] scalar arithmetic wraps around. *)
Definition int64 (v : Z) : Z := (v + 2 ^ 63) mod 2 ^ 64 - 2 ^ 63.

(** ['%d' % v] *)
Definition format_d (v : Z) : string := NilZero.string_of_int (Z.to_int v).

(** ** The part of [numpy] the binding uses *)

Module numpy.

(** Largest array dimension on a 64-bit build. Running out of memory
    below this bound is not modelled. *)
Definition max_dim : Z := 2 ^ 63 - 1.

(** [numpy.zeros (n).astype (dtype)]: a one-dimensional array of [n]
    zeros of the requested type. *)
Definition zeros {A : Type} (zero : A) (n : Z) : outcome (list A) :=
  if n <? 0 then Raise (ValueError "negative dimensions are not allowed")
  else if max_dim <? n then Raise (ValueError "Maximum allowed dimension exceeded")
  else Ok (repeat zero (Z.to_nat n)).

(** [a[0:stop]] on a one-dimensional array; a negative [stop] counts from
    the end, and out-of-range bounds are clipped. *)
Definition slice0 {A : Type} (a : list A) (stop : Z) : list A :=
  if stop <? 0
  then firstn (Z.to_nat (Z.max 0 (Z.of_nat (List.length a) + stop))) a
  else firstn (Z.to_nat stop) a.

(** A two-dimensional array: its shape and its cells in row-major order. *)
Record ndarray2 (A : Type) : Type := mk_ndarray2 {
  rows : nat;
  cols : nat;
  cells : list A
}.
Arguments mk_ndarray2 {A} rows cols cells.
Arguments rows {A} _.
Arguments cols {A} _.
Arguments cells {A} _.

(** Row [i] of a two-dimensional array. *)
Definition row {A : Type} (m : ndarray2 A) (i : nat) : list A :=
  firstn (cols m) (skipn (i * cols m) (cells m)).

Definition cannot_reshape : exn := ValueError "cannot reshape array".

(** [a.reshape (r, c)] on a one-dimensional array. A negative dimension
    is an unknown one: there may be one, and it is inferred from the size
    and the other dimension, which must divide the size and not be zero. *)
Definition reshape {A : Type} (a : list A) (r c : Z) : outcome (ndarray2 A) :=
  let size := Z.of_nat (List.length a) in
  if (r <? 0) && (c <? 0)
  then Raise (ValueError "can only specify one unknown dimension")
  else if r <? 0
  then if (c =? 0) || negb (size mod c =? 0)
       then Raise cannot_reshape
       else Ok (mk_ndarray2 (Z.to_nat (size / c)) (Z.to_nat c) a)
  else if c <? 0
  then if (r =? 0) || negb (size mod r =? 0)
       then Raise cannot_reshape
       else Ok (mk_ndarray2 (Z.to_nat r) (Z.to_nat (size / r)) a)
  else if r * c =? size
  then Ok (mk_ndarray2 (Z.to_nat r) (Z.to_nat c) a)
  else Raise cannot_reshape.

(** The cells of [column_stack]: each row of the matrix, converted to the
    result type, followed by the matching entry of the vector. *)
Fixpoint stack_cells {A B : Type} (conv : A -> B) (width : nat)
         (data : list A) (column : list B) : list B :=
  match column with
  | [] => []
  | t :: column' =>
      map conv (firstn width data) ++ t :: stack_cells conv width (skipn width data) column'
  end.

(** [numpy.column_stack ((m, v))] for a two-dimensional [m] and a
    one-dimensional [v]: [v] becomes the last column; the row counts must
    agree. *)
Definition column_stack {A B : Type} (conv : A -> B)
           (m : ndarray2 A) (v : list B) : outcome (ndarray2 B) :=
  if Nat.eqb (rows m) (List.length v)
  then Ok (mk_ndarray2 (rows m) (S (cols m)) (stack_cells conv (cols m) (cells m) v))
  else Raise (ValueError "all the input array dimensions except for the concatenation axis must match exactly").

End numpy.

(** ** The board descriptor ([class CYTHON]) *)

Module CYTHON.
Definition board_id : Z := 0.
Definition fs_hz : Z := 250.
Definition num_eeg_channels : Z := 8.
Definition package_length : Z := 12.
End CYTHON.

(** ** The interpreter and the native library *)

(** The exported functions, with their integer arguments as they arrive
    after [ctypes] marshalling. The array arguments are out-parameters and
    appear in the reply. *)
Inductive native_call : Type :=
| n_prepare_session (board_id : Z) (port_name : string)
| n_start_stream (num_samples : Z)
| n_stop_stream
| n_release_session
| n_get_current_board_data (num_samples : Z)
| n_get_board_data (data_count : Z)
| n_get_board_data_count
| n_set_log_level (level : Z).

(** What a native function hands back: its [c_int] result and what it
    wrote through the pointers it was given. *)
Record native_reply (F32 F64 : Type) : Type := {
  status : Z;
  data_written : list F32;
  time_written : list F64;
  count_written : option Z
}.
Arguments status {F32 F64} _.
Arguments data_written {F32 F64} _.
Arguments time_written {F32 F64} _.
Arguments count_written {F32 F64} _.

(** Everything the binding depends on and does not define:
    - [numpy.float32] and [numpy.float64] values, and the promotion of the
      former to the latter;
    - the native library, a state machine answering each call;
    - the enumeration [brainflow.exit_codes.StreamExitCodes];
    - [struct.calcsize ("P")], [platform.system ()], and
      [ctypes.cdll.LoadLibrary], which either fails or yields a library
      with some exported symbols. *)
Record Host : Type := {
  F32 : Type;
  F64 : Type;
  zero32 : F32;
  zero64 : F64;
  promote : F32 -> F64;
  NState : Type;
  native : NState -> native_call -> native_reply F32 F64 * NState;
  StreamExitCodes : Enum.t;
  version_info : Z * Z;
  pointer_size : Z;
  platform_system : string;
  load_library : string -> option (list string)
}.

(** [sys.version_info >= (3,0)], on the major and minor numbers: tuples
    compare element by element, and a tuple that continues a shorter one
    is the greater. *)
Definition python3 (H : Host) : bool :=
  let (major, minor) := version_info H in
  (3 <? major) || ((major =? 3) && (0 <=? minor)).

(** The type [str] of the interpreter: text, as a list of code points, in
    Python 3; a byte string in Python 2. An argument that is not a [str]
    is outside the model. *)
Definition str_type (python3 : bool) : Type :=
  if python3 then list N else string.

Definition py_str (H : Host) : Type := str_type (python3 H).

(** One byte of a byte string. *)
Definition octet (n : N) : ascii := ascii_of_N n.

(** The UTF-8 bytes of one code point, none for a surrogate. Code points
    end at 0x10FFFF. *)
Definition utf8 (cp : N) : option string :=
  (if cp <? 128 then Some (String (octet cp) EmptyString)
   else if cp <? 2048
   then Some (String (octet (192 + cp / 64)) (String (octet (128 + cp mod 64)) EmptyString))
   else if (55296 <=? cp) && (cp <=? 57343) then None
   else if cp <? 65536
   then Some (String (octet (224 + cp / 4096))
             (String (octet (128 + (cp / 64) mod 64))
             (String (octet (128 + cp mod 64)) EmptyString)))
   else Some (String (octet (240 + cp / 262144))
             (String (octet (128 + (cp / 4096) mod 64))
             (String (octet (128 + (cp / 64) mod 64))
             (String (octet (128 + cp mod 64)) EmptyString)))))%N.

(** [text.encode ()]: UTF-8, strict; a surrogate raises. *)
Fixpoint str_encode (text : list N) : outcome string :=
  match text with
  | [] => Ok EmptyString
  | cp :: rest =>
      match utf8 cp with
      | None =>
          Raise (UnicodeEncodeError "'utf-8' codec can't encode character: surrogates not allowed")
      | Some bytes =>
          match str_encode rest with
          | Ok more => Ok (bytes ++ more)%string
          | Raise e => Raise e
          end
      end
  end.

(** The first statement of [BoardShim.__init__]: the port name is encoded
    in Python 3 and kept as it is in Python 2. *)
Definition encoded_port_name (H : Host) : py_str H -> outcome string :=
  match python3 H as b return (str_type b -> outcome string) with
  | true => str_encode
  | false => fun bytes => Ok bytes
  end.

(** The [BoardControllerDLL] object: which construction it comes from and
    the library it wraps. *)
Record DLL : Type := {
  dll_id : nat;
  lib : string
}.

(** [self.lib.<name>] for each exported function, in the order of
    [BoardControllerDLL.__init__]. *)
Definition bound_symbols : list string :=
  ["prepare_session"; "start_stream"; "stop_stream"; "get_current_board_data";
   "get_board_data"; "stop_stream"; "release_session"; "get_board_data_count";
   "set_log_level"].

Fixpoint bind_symbols (exports names : list string) : outcome unit :=
  match names with
  | [] => Ok tt
  | n :: rest =>
      if existsb (String.eqb n) exports then bind_symbols exports rest
      else Raise (AttributeError n)
  end.

(** A native write through an array pointer: the array keeps its length,
    its leading cells are overwritten. A write past the end is cut off;
    the memory it would damage is not part of the model. *)
Definition store {A : Type} (buf written : list A) : list A :=
  firstn (List.length buf) (written ++ skipn (List.length written) buf).

(** The process state: the class attribute
    [BoardControllerDLL.__instance], the [LoadLibrary] calls made so far,
    the state of the native library and the native calls made so far with
    their replies (both logs oldest first). *)
Record World (H : Host) : Type := {
  dll_instance : option DLL;
  load_calls : list string;
  native_state : NState H;
  native_log : list (native_call * native_reply (F32 H) (F64 H))
}.
Arguments dll_instance {H} _.
Arguments load_calls {H} _.
Arguments native_state {H} _.
Arguments native_log {H} _.

(** A process in which the binding has not been used yet. *)
Definition process_start (H : Host) (s : NState H) : World H :=
  {| dll_instance := None; load_calls := []; native_state := s; native_log := [] |}.

(** [class BoardShim] instances. *)
Record BoardShim : Type := {
  port_name : string;
  board_id : Z;
  package_length : Z;
  fs_hz : Z;
  num_eeg_channels : Z
}.

Section Binding.

Variable H : Host.

(** *** The monad of the binding: state and exceptions *)

Definition M (A : Type) : Type := World H -> outcome A * World H.

Definition ret {A : Type} (a : A) : M A := fun w => (Ok a, w).

Definition raise {A : Type} (e : exn) : M A := fun w => (Raise e, w).

Definition bind {A B : Type} (c : M A) (k : A -> M B) : M B :=
  fun w =>
    match c w with
    | (Ok a, w') => k a w'
    | (Raise e, w') => (Raise e, w')
    end.

Definition lift {A : Type} (o : outcome A) : M A := fun w => (o, w).

Notation "x <- c ;; k" := (bind c (fun x => k))
  (at level 61, c at next level, right associativity).
Notation "c ;;; k" := (bind c (fun _ => k))
  (at level 61, right associativity).

(** *** [class BrainFlowError] *)

(** [BrainFlowError (message, exit_code)]: the constructor looks the code
    up in the enumeration, which raises [ValueError] for a value that is
    no member's. *)
Definition BrainFlowError_init (message : string) (exit_code : Z) : exn :=
  match Enum.by_value (StreamExitCodes H) exit_code with
  | Some name =>
      BrainFlowError (name ++ ":" ++ format_d exit_code ++ " " ++ message)%string exit_code
  | None => ValueError (format_d exit_code ++ " is not a valid StreamExitCodes")%string
  end.

(** [StreamExitCodes.<name>.value] *)
Definition exit_code_value (name : string) : M Z :=
  match Enum.by_name (StreamExitCodes H) name with
  | Some v => ret v
  | None => raise (AttributeError name)
  end.

(** The two lines that follow every native call:
    [if res != StreamExitCodes.STATUS_OK.value: raise BrainFlowError (message, res)] *)
Definition check_status (res : Z) (message : string) : M unit :=
  ok <- exit_code_value "STATUS_OK";;
  if negb (res =? ok) then raise (BrainFlowError_init message res) else ret tt.

(** *** [class BoardControllerDLL] *)

(** The library file [BoardControllerDLL.__init__] asks for. *)
Definition dll_path : string :=
  if String.eqb (platform_system H) "Windows"
  then "lib\BoardController.dll" else "lib/libBoardController.so".

Definition BoardControllerDLL_init : M DLL :=
  fun w =>
    let w' := {| dll_instance := dll_instance w;
                 load_calls := load_calls w ++ [dll_path];
                 native_state := native_state w;
                 native_log := native_log w |} in
    match load_library H dll_path with
    | None => (Raise (OSError dll_path), w')
    | Some exports =>
        match bind_symbols exports bound_symbols with
        | Raise e => (Raise e, w')
        | Ok _ => (Ok {| dll_id := List.length (load_calls w); lib := dll_path |}, w')
        end
    end.

Definition set_instance (d : DLL) : M unit :=
  fun w => (Ok tt, {| dll_instance := Some d;
                      load_calls := load_calls w;
                      native_state := native_state w;
                      native_log := native_log w |}).

Definition get_instance : M DLL :=
  fun w =>
    match dll_instance w with
    | None =>
        if negb (pointer_size H * 8 =? 64)
        then (Raise (Exception "You need 64-bit python to use this library"), w)
        else (d <- BoardControllerDLL_init;;
              set_instance d;;;
              ret d) w
    | Some d => (Ok d, w)
    end.

(** A call of an exported function through the library object. *)
Definition call (d : DLL) (c : native_call) : M (native_reply (F32 H) (F64 H)) :=
  fun w =>
    let (r, s) := native H (native_state w) c in
    (Ok r, {| dll_instance := dll_instance w;
              load_calls := load_calls w;
              native_state := s;
              native_log := native_log w ++ [(c, r)] |}).

(** *** [class BoardShim] *)

(** [BoardShim (board_id, port_name)] *)
Definition BoardShim_init (board_id : Z) (port_name : py_str H) : M BoardShim :=
  stored <- lift (encoded_port_name H port_name);;
  if board_id =? CYTHON.board_id
  then ret {| port_name := stored;
              board_id := board_id;
              package_length := CYTHON.package_length;
              fs_hz := CYTHON.fs_hz;
              num_eeg_channels := CYTHON.num_eeg_channels |}
  else (code <- exit_code_value "UNSUPPORTED_BOARD_ERROR";;
        raise (BrainFlowError_init "unsupported board type" code)).

Definition set_log_level (level : Z) (message : string) : M unit :=
  d <- get_instance;;
  r <- call d (n_set_log_level (c_int level));;
  check_status (status r) message.

Definition enable_board_logger : M unit :=
  set_log_level 2 "unable to enable logger".

Definition disable_board_logger : M unit :=
  set_log_level 6 "unable to disable logger".

Definition enable_dev_board_logger : M unit :=
  set_log_level 0 "unable to enable logger".

Definition prepare_session (self : BoardShim) : M unit :=
  d <- get_instance;;
  r <- call d (n_prepare_session (c_int (board_id self)) (port_name self));;
  check_status (status r) "unable to prepare streaming session".

Definition start_stream_default : Z := 3600 * 250.

Definition start_stream (self : BoardShim) (num_samples : option Z) : M unit :=
  let num_samples :=
    match num_samples with Some n => n | None => start_stream_default end in
  d <- get_instance;;
  r <- call d (n_start_stream (c_int num_samples));;
  check_status (status r) "unable to start streaming session".

Definition stop_stream (self : BoardShim) : M unit :=
  d <- get_instance;;
  r <- call d n_stop_stream;;
  check_status (status r) "unable to stop streaming session".

Definition release_session (self : BoardShim) : M unit :=
  d <- get_instance;;
  r <- call d n_release_session;;
  check_status (status r) "unable to release streaming session".

(** The value written through an [int64] pointer, if any. *)
Definition written_int64 (r : native_reply (F32 H) (F64 H)) : list Z :=
  match count_written r with
  | Some c => [int64 c]
  | None => []
  end.

Definition get_current_board_data (self : BoardShim) (num_samples : Z)
  : M (option (numpy.ndarray2 (F64 H))) :=
  data_arr <- lift (numpy.zeros (zero32 H) (num_samples * package_length self));;
  time_arr <- lift (numpy.zeros (zero64 H) num_samples);;
  current_size <- lift (numpy.zeros 0 1);;
  d <- get_instance;;
  r <- call d (n_get_current_board_data (c_int num_samples));;
  let data_arr := store data_arr (data_written r) in
  let time_arr := store time_arr (time_written r) in
  let current_size := store current_size (written_int64 r) in
  check_status (status r) "unable to get current data";;;
  match current_size with
  | [] => ret None
  | size0 :: _ =>
      data_arr <- lift (numpy.reshape
                          (numpy.slice0 data_arr (int64 (size0 * package_length self)))
                          size0 (package_length self));;
      let time_arr := numpy.slice0 time_arr size0 in
      m <- lift (numpy.column_stack (promote H) data_arr time_arr);;
      ret (Some m)
  end.

Definition get_immediate_board_data (self : BoardShim)
  : M (option (numpy.ndarray2 (F64 H))) :=
  get_current_board_data self 1.

Definition get_board_data_count (self : BoardShim) : M Z :=
  data_size <- lift (numpy.zeros 0 1);;
  d <- get_instance;;
  r <- call d n_get_board_data_count;;
  let data_size := store data_size (written_int64 r) in
  check_status (status r) "unable to obtain buffer size";;;
  match data_size with
  | [] => raise (IndexError "index 0 is out of bounds for axis 0 with size 0")
  | size0 :: _ => ret size0
  end.

Definition get_board_data (self : BoardShim) : M (numpy.ndarray2 (F64 H)) :=
  data_size <- get_board_data_count self;;
  time_arr <- lift (numpy.zeros (zero64 H) data_size);;
  data_arr <- lift (numpy.zeros (zero32 H) (int64 (data_size * package_length self)));;
  d <- get_instance;;
  r <- call d (n_get_board_data (c_int data_size));;
  let data_arr := store data_arr (data_written r) in
  let time_arr := store time_arr (time_written r) in
  check_status (status r) "unable to get board data";;;
  data_arr <- lift (numpy.reshape data_arr data_size (package_length self));;
  lift (numpy.column_stack (promote H) data_arr time_arr).

(** *** The public operations, as one type *)

Inductive operation : Type :=
| op_prepare_session
| op_start_stream (num_samples : option Z)
| op_stop_stream
| op_release_session
| op_get_current_board_data (num_samples : Z)
| op_get_board_data
| op_get_board_data_count
| op_enable_board_logger
| op_disable_board_logger
| op_enable_dev_board_logger.

Inductive value : Type :=
| v_none
| v_int (z : Z)
| v_table (m : option (numpy.ndarray2 (F64 H))).

(** One public operation on a [BoardShim]. *)
Definition run (self : BoardShim) (op : operation) : M value :=
  match op with
  | op_prepare_session => prepare_session self;;; ret v_none
  | op_start_stream n => start_stream self n;;; ret v_none
  | op_stop_stream => stop_stream self;;; ret v_none
  | op_release_session => release_session self;;; ret v_none
  | op_get_current_board_data n => m <- get_current_board_data self n;; ret (v_table m)
  | op_get_board_data => m <- get_board_data self;; ret (v_table (Some m))
  | op_get_board_data_count => z <- get_board_data_count self;; ret (v_int z)
  | op_enable_board_logger => enable_board_logger;;; ret v_none
  | op_disable_board_logger => disable_board_logger;;; ret v_none
  | op_enable_dev_board_logger => enable_dev_board_logger;;; ret v_none
  end.

(** [k] successive calls of [c], each one observed on its own: what it
    returned or raised. *)
Fixpoint calls {A : Type} (c : M A) (k : nat) (w : World H)
  : list (outcome A) * World H :=
  match k with
  | O => ([], w)
  | S k' =>
      let (o, w1) := c w in
      let (os, w2) := calls c k' w1 in
      (o :: os, w2)
  end.

(** *** Vocabulary of the statements *)

(** A [BoardShim] that its constructor returned. *)
Definition constructed (self : BoardShim) : Prop :=
  exists b p w, fst (BoardShim_init b p w) = Ok self.

(** The library file is present and exports every function the binding
    binds. *)
Definition library_installed : Prop :=
  exists exports,
    load_library H dll_path = Some exports /\
    bind_symbols exports bound_symbols = Ok tt.

(** The world after a history of public operations, each one run to its
    end, whether it returned or raised. *)
Fixpoint session (ops : list (BoardShim * operation)) (w : World H) : World H :=
  match ops with
  | [] => w
  | (self, op) :: rest => session rest (snd (run self op w))
  end.

(** A computation that keeps a property of the world. *)
Definition preserves {A : Type} (I : World H -> Prop) (c : M A) : Prop :=
  forall w, I w -> I (snd (c w)).

(** The singleton is either not created yet, with no library load so far,
    or it is the instance of the first and only load. *)
Definition singleton_ok (w : World H) : Prop :=
  (dll_instance w = None /\ load_calls w = []) \/
  (dll_instance w = Some {| dll_id := 0; lib := dll_path |} /\
   load_calls w = [dll_path]).

(** Nothing has reached the library: no instance, no load, no native call. *)
Definition untouched (w : World H) : Prop :=
  dll_instance w = None /\ load_calls w = [] /\ native_log w = [].

(** The reply of the native library to a call made in world [w]. *)
Definition answer (w : World H) (c : native_call) : native_reply (F32 H) (F64 H) :=
  fst (native H (native_state w) c).

(** An array of [len] zeros after the native library wrote to it. *)
Definition filled {A : Type} (zero : A) (len : Z) (written : list A) : list A :=
  store (repeat zero (Z.to_nat len)) written.

(** The count a reply reports; [0], the initial content of the cell, when
    the library wrote none. *)
Definition reported (r : native_reply (F32 H) (F64 H)) : Z :=
  match count_written r with
  | Some k => k
  | None => 0
  end.

(** The world after a native call made in world [w]. *)
Definition after_call (w : World H) (c : native_call) : World H :=
  {| dll_instance := dll_instance w;
     load_calls := load_calls w;
     native_state := snd (native H (native_state w) c);
     native_log := native_log w ++ [(c, answer w c)] |}.

(** The first nonzero status among logged native calls. *)
Definition first_failure
           (l : list (native_call * native_reply (F32 H) (F64 H))) : option Z :=
  find (fun s => negb (s =? 0)) (map (fun cr => status (snd cr)) l).


(** A computation that, whatever the native library does, turns the first
    nonzero status among its native calls into the exception that
    [BrainFlowError (message, status)] gives, and makes no native call
    after the one that failed. *)
Definition fails_by_status {A : Type} (c : M A) (w : World H) : Prop :=
  exists made,
    native_log (snd (c w)) = native_log w ++ made /\
    forall s, first_failure made = Some s ->
              (exists message, fst (c w) = Raise (BrainFlowError_init message s)) /\
              (exists before c r, made = before ++ [(c, r)] /\ status r = s).

(** The native function an operation calls first once it has its arrays,
    with the arguments as marshalled. *)
Definition native_request (self : BoardShim) (op : operation) : native_call :=
  match op with
  | op_prepare_session => n_prepare_session (c_int (board_id self)) (port_name self)
  | op_start_stream (Some n) => n_start_stream (c_int n)
  | op_start_stream None => n_start_stream (c_int start_stream_default)
  | op_stop_stream => n_stop_stream
  | op_release_session => n_release_session
  | op_get_current_board_data n => n_get_current_board_data (c_int n)
  | op_get_board_data => n_get_board_data_count
  | op_get_board_data_count => n_get_board_data_count
  | op_enable_board_logger => n_set_log_level (c_int 2)
  | op_disable_board_logger => n_set_log_level (c_int 6)
  | op_enable_dev_board_logger => n_set_log_level (c_int 0)
  end.

(** The arrays an operation allocates before it turns to the library can
    be allocated. *)
Definition allocatable (self : BoardShim) (op : operation) : Prop :=
  match op with
  | op_get_current_board_data n =>
      0 <= n * package_length self <= numpy.max_dim /\ 0 <= n <= numpy.max_dim
  | _ => True
  end.

(** [BoardControllerDLL ()] fails with [e]: the library file does not load,
    or it lacks a function the constructor binds. *)
Definition load_fails_with (e : exn) : Prop :=
  (load_library H dll_path = None /\ e = OSError dll_path) \/
  (exists exports,
      load_library H dll_path = Some exports /\
      bind_symbols exports bound_symbols = Raise e).

End Binding.

Arguments v_none {H}.
Arguments v_int {H} z.
Arguments v_table {H} m.

(** ** The sample buffer of the native core *)

Module SampleBuffer.

Section Buffer.

Variable Sample : Type.

(** Modelled from the spec: the native core is not among the sources; its
    SampleBuffer is an ordered sequence of samples, oldest first, with a
    maximum retained count [capacity]. *)
Record t : Type := {
  capacity : nat;
  retained : list Sample
}.

(** Modelled from the spec: a buffer that retains nothing yet. *)
Definition empty (capacity : nat) : t :=
  {| capacity := capacity; retained := [] |}.

(** Modelled from the spec: [count ()], the current number of retained
    samples. *)
Definition count (b : t) : nat := List.length (retained b).

(** Modelled from the spec: [push (sample)] appends; if length equals
    capacity, it evicts the oldest entry first. *)
Definition push (s : Sample) (b : t) : t :=
  if Nat.eqb (count b) (capacity b)
  then {| capacity := capacity b; retained := tl (retained b) ++ [s] |}
  else {| capacity := capacity b; retained := retained b ++ [s] |}.

(** Modelled from the spec: a sequence of pushes, in order. *)
Definition push_all (ss : list Sample) (b : t) : t :=
  fold_left (fun b s => push s b) ss b.

(** The [k] last entries of a sequence, in their order. *)
Definition latest (k : nat) (l : list Sample) : list Sample :=
  skipn (List.length l - k) l.

(** Modelled from the spec: [drain_latest (n)] gives the [n] most recently
    pushed samples, oldest first, or all of them when [n] exceeds the
    count, nothing for [n <= 0], and leaves the buffer as it is. *)
Definition drain_latest (n : Z) (b : t) : list Sample :=
  if n <=? 0 then [] else latest (Z.to_nat n) (retained b).

(** Modelled from the spec: [drain_all ()] gives every retained sample,
    oldest first, and empties the buffer. *)
Definition drain_all (b : t) : list Sample * t :=
  (retained b, empty (capacity b)).

End Buffer.

Arguments capacity {Sample} _.
Arguments retained {Sample} _.
Arguments empty {Sample} capacity.
Arguments count {Sample} b.
Arguments push {Sample} s b.
Arguments push_all {Sample} ss b.
Arguments latest {Sample} k l.
Arguments drain_latest {Sample} n b.
Arguments drain_all {Sample} b.

End SampleBuffer.

(** ** A synthetic host, for concrete runs *)

Module Synthetic.

(** A sample: the package values and a timestamp. *)
Definition sample : Type := (list Z * Z)%type.

(** An enumeration in the shape of [exit_codes.py]. *)
Definition exit_codes : Enum.t :=
  [("STATUS_OK", 0); ("PORT_ALREADY_OPEN_ERROR", 1); ("UNABLE_TO_OPEN_PORT_ERROR", 2);
   ("SET_PORT_ERROR", 3); ("BOARD_WRITE_ERROR", 4); ("INCOMMING_MSG_ERROR", 5);
   ("INITIAL_MSG_ERROR", 6); ("BOARD_NOT_READY_ERROR", 7); ("STREAM_ALREADY_RUN_ERROR", 8);
   ("INVALID_BUFFER_SIZE_ERROR", 9); ("STREAM_THREAD_ERROR", 10);
   ("STREAM_THREAD_IS_NOT_RUNNING", 11); ("EMPTY_BUFFER_ERROR", 12);
   ("INVALID_ARGUMENTS_ERROR", 13); ("UNSUPPORTED_BOARD_ERROR", 14);
   ("BOARD_NOT_CREATED_ERROR", 15)].

Definition reply (st : Z) (xs : list sample) (n : option Z) : native_reply Z Z :=
  {| status := st;
     data_written := flat_map fst xs;
     time_written := map snd xs;
     count_written := n |}.

(** The largest count the library reports: it has room for four
    samples. *)
Definition room : nat := 4.

(** A native library that keeps a sample buffer and answers the data calls
    from it; the other calls succeed, except [start_stream] with a size
    that is not positive. *)
Definition board_controller (b : SampleBuffer.t sample) (c : native_call)
  : native_reply Z Z * SampleBuffer.t sample :=
  match c with
  | n_get_board_data_count =>
      (reply 0 [] (Some (Z.of_nat (Nat.min (SampleBuffer.count b) room))), b)
  | n_get_current_board_data n =>
      if n <? 0 then (reply 13 [] None, b)
      else let xs := SampleBuffer.drain_latest n b in
           (reply 0 xs (Some (Z.of_nat (List.length xs))), b)
  | n_get_board_data k =>
      (reply 0 (firstn (Z.to_nat k) (SampleBuffer.retained b)) None,
       {| SampleBuffer.capacity := SampleBuffer.capacity b;
          SampleBuffer.retained := skipn (Z.to_nat k) (SampleBuffer.retained b) |})
  | n_start_stream n =>
      if n <=? 0 then (reply 9 [] None, b)
      else (reply 0 [] None, b)
  | _ => (reply 0 [] None, b)
  end.

Definition libraries (path : string) : option (list string) :=
  if String.eqb path "lib/libBoardController.so" then Some bound_symbols else None.

(** A 64-bit interpreter with the library installed. *)
Definition host : Host :=
  {| F32 := Z; F64 := Z; zero32 := 0; zero64 := 0; promote := fun x => x;
     NState := SampleBuffer.t sample;
     native := board_controller;
     StreamExitCodes := exit_codes;
     version_info := (3, 7);
     pointer_size := 8;
     platform_system := "Linux";
     load_library := libraries |}.

(** The same on a 32-bit interpreter. *)
Definition host32 : Host :=
  {| F32 := Z; F64 := Z; zero32 := 0; zero64 := 0; promote := fun x => x;
     NState := SampleBuffer.t sample;
     native := board_controller;
     StreamExitCodes := exit_codes;
     version_info := (3, 7);
     pointer_size := 4;
     platform_system := "Linux";
     load_library := libraries |}.

Definition sample1 : sample := ([101; 102; 103; 104; 105; 106; 107; 108; 109; 110; 111; 112], 1001).
Definition sample2 : sample := ([201; 202; 203; 204; 205; 206; 207; 208; 209; 210; 211; 212], 1002).

(** A native buffer that already retains two samples. *)
Definition two_samples : SampleBuffer.t sample :=
  SampleBuffer.push_all [sample1; sample2] (SampleBuffer.empty room).

(** The process at its start, on the 64-bit host. *)
Definition world : World host := process_start host two_samples.

(** Four pushes for a buffer of two. *)
Definition burst : list Z := [10; 20; 30; 40].

(** A library that answers every call with a status that is no member of
    the enumeration. *)
Definition stray_controller (b : SampleBuffer.t sample) (c : native_call)
  : native_reply Z Z * SampleBuffer.t sample :=
  (reply 99 [] None, b).

(** The 64-bit host with that library. *)
Definition stray_host : Host :=
  {| F32 := Z; F64 := Z; zero32 := 0; zero64 := 0; promote := fun x => x;
     NState := SampleBuffer.t sample;
     native := stray_controller;
     StreamExitCodes := exit_codes;
     version_info := (3, 7);
     pointer_size := 8;
     platform_system := "Linux";
     load_library := libraries |}.

(** A library that breaks its word on counts: it reports a negative
    backlog, and five samples whatever number was asked for. *)
Definition wild_controller (b : SampleBuffer.t sample) (c : native_call)
  : native_reply Z Z * SampleBuffer.t sample :=
  match c with
  | n_get_board_data_count => (reply 0 [] (Some (-1)), b)
  | n_get_current_board_data _ => (reply 0 [] (Some 5), b)
  | _ => (reply 0 [] None, b)
  end.

(** The 64-bit host with that library. *)
Definition wild_host : Host :=
  {| F32 := Z; F64 := Z; zero32 := 0; zero64 := 0; promote := fun x => x;
     NState := SampleBuffer.t sample;
     native := wild_controller;
     StreamExitCodes := exit_codes;
     version_info := (3, 7);
     pointer_size := 8;
     platform_system := "Linux";
     load_library := libraries |}.

(** A library file that loads but lacks [set_log_level]. *)
Definition partial_libraries (path : string) : option (list string) :=
  if String.eqb path "lib/libBoardController.so"
  then Some ["prepare_session"; "start_stream"; "stop_stream"; "get_current_board_data";
             "get_board_data"; "release_session"; "get_board_data_count"]
  else None.

(** The 64-bit host with that library file. *)
Definition partial_host : Host :=
  {| F32 := Z; F64 := Z; zero32 := 0; zero64 := 0; promote := fun x => x;
     NState := SampleBuffer.t sample;
     native := board_controller;
     StreamExitCodes := exit_codes;
     version_info := (3, 7);
     pointer_size := 8;
     platform_system := "Linux";
     load_library := partial_libraries |}.

(** A 64-bit host on which the library file is missing. *)
Definition bare_host : Host :=
  {| F32 := Z; F64 := Z; zero32 := 0; zero64 := 0; promote := fun x => x;
     NState := SampleBuffer.t sample;
     native := board_controller;
     StreamExitCodes := exit_codes;
     version_info := (3, 7);
     pointer_size := 8;
     platform_system := "Windows";
     load_library := fun _ => None |}.

(** The table of the two retained samples. *)
Definition table : numpy.ndarray2 Z :=
  numpy.mk_ndarray2 2 13
    [101; 102; 103; 104; 105; 106; 107; 108; 109; 110; 111; 112; 1001;
     201; 202; 203; 204; 205; 206; 207; 208; 209; 210; 211; 212; 1002].

(** The library object of the 64-bit host. *)
Definition dll : DLL := {| dll_id := 0; lib := "lib/libBoardController.so" |}.

(** The process once the library is loaded. *)
Definition loaded_world : World host :=
  Build_World host (Some dll) ["lib/libBoardController.so"] two_samples [].

(** The text ["/dev/ttyUSB0"], and a text that is one lone surrogate. *)
Definition port : list N := [47; 100; 101; 118; 47; 116; 116; 121; 85; 83; 66; 48]%N.
Definition lone_surrogate : list N := [55296]%N.

(** The object [BoardShim (0, "/dev/ttyUSB0")]. *)
Definition shim : BoardShim :=
  {| port_name := "/dev/ttyUSB0"; board_id := 0;
     package_length := CYTHON.package_length;
     fs_hz := CYTHON.fs_hz;
     num_eeg_channels := CYTHON.num_eeg_channels |}.

End Synthetic.

(** * Properties *)

(** ** Enumerations *)

Lemma by_name_has_value (e : Enum.t) (name : string) (v : Z) :
  Enum.by_name e name = Some v -> exists n, Enum.by_value e v = Some n.
Proof.
  induction e as [|[n0 v0] rest IH]; simpl; [discriminate|].
  destruct (String.eqb n0 name).
  - intros [= ->]. rewrite Z.eqb_refl. eauto.
  - intros Hn. destruct (Z.eqb v0 v); eauto.
Qed.

Section BindingFacts.

Variable H : Host.

(** ** The singleton *)

Lemma get_instance_frame (w : World H) :
  native_state (snd (get_instance H w)) = native_state w /\
  native_log (snd (get_instance H w)) = native_log w.
Proof.
  unfold get_instance. destruct (dll_instance w); [auto|].
  destruct (negb _); [auto|].
  unfold bind, BoardControllerDLL_init.
  destruct (load_library H (dll_path H)); [|auto].
  destruct (bind_symbols l bound_symbols); simpl; auto.
Qed.

Lemma get_instance_sets (w w' : World H) (d : DLL) :
  get_instance H w = (Ok d, w') -> dll_instance w' = Some d.
Proof.
  unfold get_instance. destruct (dll_instance w) eqn:E.
  - intros [= <- <-]. exact E.
  - destruct (negb _); [discriminate|].
    unfold bind, BoardControllerDLL_init.
    destruct (load_library H (dll_path H)); [|discriminate].
    destruct (bind_symbols l bound_symbols); [|discriminate].
    simpl. intros [= <- <-]. reflexivity.
Qed.

Lemma get_instance_loaded (w : World H) (d : DLL) :
  dll_instance w = Some d -> get_instance H w = (Ok d, w).
Proof. unfold get_instance. intros ->. reflexivity. Qed.

Lemma get_instance_cases (w : World H) :
  exists o w', get_instance H w = (o, w') /\
               native_state w' = native_state w /\
               native_log w' = native_log w /\
               (forall d, o = Ok d -> dll_instance w' = Some d).
Proof.
  destruct (get_instance H w) as [o w'] eqn:E. exists o, w'.
  pose proof (get_instance_frame w) as [Hs Hl]. rewrite E in Hs, Hl.
  repeat split; auto. intros d ->. eapply get_instance_sets; eauto.
Qed.

Lemma get_instance_first (w : World H) :
  pointer_size H * 8 = 64 -> library_installed H ->
  dll_instance w = None -> load_calls w = [] ->
  exists w', get_instance H w = (Ok {| dll_id := 0; lib := dll_path H |}, w') /\
             dll_instance w' = Some {| dll_id := 0; lib := dll_path H |} /\
             load_calls w' = [dll_path H].
Proof.
  intros H64 (exports & Hload & Hsyms) Hnone Hcalls.
  unfold get_instance. rewrite Hnone.
  replace (pointer_size H * 8 =? 64) with true by (symmetry; apply Z.eqb_eq; exact H64).
  unfold bind, BoardControllerDLL_init. rewrite Hload, Hsyms, Hcalls. simpl.
  eexists. split; [reflexivity|]. simpl. auto.
Qed.

Lemma calls_loaded (k : nat) (w : World H) (d : DLL) :
  dll_instance w = Some d ->
  calls H (get_instance H) k w = (repeat (Ok d) k, w).
Proof.
  intros Hd. induction k as [|k IH]; simpl; [reflexivity|].
  rewrite (get_instance_loaded w d Hd), IH. reflexivity.
Qed.

Lemma calls_not_64 (k : nat) (w : World H) :
  pointer_size H * 8 <> 64 -> dll_instance w = None ->
  calls H (get_instance H) k w =
  (repeat (Raise (Exception "You need 64-bit python to use this library")) k, w).
Proof.
  intros H64 Hnone. induction k as [|k IH]; simpl; [reflexivity|].
  unfold get_instance at 1. rewrite Hnone.
  replace (pointer_size H * 8 =? 64) with false by (symmetry; apply Z.eqb_neq; exact H64).
  simpl. rewrite IH. reflexivity.
Qed.

(** ** Status checks and exceptions *)

Lemma check_status_eq (ok res : Z) (message : string) (w : World H) :
  Enum.by_name (StreamExitCodes H) "STATUS_OK" = Some ok ->
  check_status H res message w =
  if res =? ok then (Ok tt, w) else (Raise (BrainFlowError_init H message res), w).
Proof.
  intros Hok. unfold check_status, bind, exit_code_value. rewrite Hok.
  unfold ret. destruct (res =? ok); reflexivity.
Qed.

Lemma BrainFlowError_init_member (message kind : string) (code : Z) :
  Enum.by_value (StreamExitCodes H) code = Some kind ->
  BrainFlowError_init H message code =
  BrainFlowError (kind ++ ":" ++ format_d code ++ " " ++ message)%string code.
Proof. intros Hk. unfold BrainFlowError_init. rewrite Hk. reflexivity. Qed.

(** A status that is no member's value never reaches [BrainFlowError]:
    the lookup in the constructor raises first. *)
Lemma BrainFlowError_init_unknown (message : string) (code : Z) :
  Enum.by_value (StreamExitCodes H) code = None ->
  BrainFlowError_init H message code =
  ValueError (format_d code ++ " is not a valid StreamExitCodes")%string.
Proof. intros Hk. unfold BrainFlowError_init. rewrite Hk. reflexivity. Qed.

(** ** Construction *)

Lemma constructed_fields (self : BoardShim) :
  constructed H self ->
  board_id self = CYTHON.board_id /\
  package_length self = CYTHON.package_length /\
  fs_hz self = CYTHON.fs_hz /\
  num_eeg_channels self = CYTHON.num_eeg_channels.
Proof.
  intros (b & p & w & Hinit). unfold BoardShim_init, bind, lift in Hinit.
  destruct (encoded_port_name H p) as [stored|e]; [|discriminate].
  destruct (b =? CYTHON.board_id) eqn:Eb.
  - apply Z.eqb_eq in Eb. cbn [ret fst] in Hinit. injection Hinit as <-. simpl. auto.
  - unfold exit_code_value in Hinit.
    destruct (Enum.by_name (StreamExitCodes H) "UNSUPPORTED_BOARD_ERROR");
      cbn in Hinit; discriminate.
Qed.

Lemma encoded_port_name_raise (p : py_str H) (e : exn) :
  encoded_port_name H p = Raise e ->
  python3 H = true /\ exists message, e = UnicodeEncodeError message.
Proof.
  unfold encoded_port_name, py_str in *. destruct (python3 H); [|discriminate].
  intros He. split; [reflexivity|]. cbn [str_type] in p.
  induction p as [|cp rest IH]; cbn [str_encode] in He; [discriminate|].
  destruct (utf8 cp); [|injection He as <-; eauto].
  destruct (str_encode rest) as [more|e']; [discriminate|].
  injection He as <-. apply IH. reflexivity.
Qed.

(** C3, as the code has it. For a board id other than the supported one
    the constructor always raises and leaves the process as it was: no
    object exists on which [prepare_session] could be called, so
    constructing and then preparing fails the same way, with no library
    instance created, no native call made and the native state untouched.
    The port name is encoded first: when that succeeds the exception is
    [BrainFlowError] carrying the value of [UNSUPPORTED_BOARD_ERROR] as its
    exit code; when it fails, which only Python 3 text can do, the
    exception is the [UnicodeEncodeError] of the encoding. *)
Theorem unsupported_board_not_constructed
        (b : Z) (p : py_str H) (code : Z) (w : World H) :
  b <> CYTHON.board_id ->
  Enum.by_name (StreamExitCodes H) "UNSUPPORTED_BOARD_ERROR" = Some code ->
  exists e,
    BoardShim_init H b p w = (Raise e, w) /\
    bind H (BoardShim_init H b p) (prepare_session H) w = (Raise e, w) /\
    (forall self, fst (BoardShim_init H b p w) <> Ok self) /\
    match encoded_port_name H p with
    | Ok stored =>
        exists kind,
          Enum.by_value (StreamExitCodes H) code = Some kind /\
          e = BrainFlowError (kind ++ ":" ++ format_d code ++ " unsupported board type")%string code
    | Raise e' =>
        e = e' /\ python3 H = true /\ exists message, e' = UnicodeEncodeError message
    end.
Proof.
  intros Hb Hcode.
  destruct (by_name_has_value _ _ _ Hcode) as [kind Hkind].
  assert (Hinit : BoardShim_init H b p w =
                  match encoded_port_name H p with
                  | Ok stored =>
                      (Raise (BrainFlowError
                                (kind ++ ":" ++ format_d code ++ " unsupported board type")%string
                                code), w)
                  | Raise e' => (Raise e', w)
                  end).
  { unfold BoardShim_init, bind, lift.
    destruct (encoded_port_name H p) as [stored|e']; [|reflexivity].
    replace (b =? CYTHON.board_id) with false by (symmetry; apply Z.eqb_neq; exact Hb).
    unfold exit_code_value. rewrite Hcode. unfold ret, raise.
    rewrite (BrainFlowError_init_member _ _ _ Hkind). reflexivity. }
  destruct (encoded_port_name H p) as [stored|e'] eqn:Ep.
  - eexists. split; [exact Hinit|]. split; [|split].
    + unfold bind at 1. rewrite Hinit. reflexivity.
    + intros self. rewrite Hinit. discriminate.
    + exists kind. auto.
  - exists e'. split; [exact Hinit|]. split; [|split].
    + unfold bind at 1. rewrite Hinit. reflexivity.
    + intros self. rewrite Hinit. discriminate.
    + split; [reflexivity|]. exact (encoded_port_name_raise p e' Ep).
Qed.

(** ** Streaming *)

(** C5. Without an explicit argument, [start_stream] asks the native
    [start_stream] for 3600 * 250 = 900000 samples, which is one hour at the
    board's sampling rate [CYTHON.fs_hz] = 250. *)
Theorem start_stream_default_request
        (self : BoardShim) (w w1 : World H) (d : DLL) :
  get_instance H w = (Ok d, w1) ->
  start_stream_default = 900000 /\
  start_stream_default = 3600 * CYTHON.fs_hz /\
  CYTHON.fs_hz = 250 /\
  native_log (snd (start_stream H self None w)) =
    native_log w ++
    [(n_start_stream 900000, fst (native H (native_state w) (n_start_stream 900000)))].
Proof.
  intros Hget. repeat split.
  unfold start_stream, bind. rewrite Hget.
  pose proof (get_instance_frame w) as [Hs Hl]. rewrite Hget in Hs, Hl. simpl in Hs, Hl.
  change (c_int start_stream_default) with 900000.
  unfold call. rewrite Hs, Hl.
  destruct (native H (native_state w) (n_start_stream 900000)) as [r s'] eqn:En.
  unfold check_status, bind, exit_code_value.
  destruct (Enum.by_name (StreamExitCodes H) "STATUS_OK"); simpl;
    [destruct (negb (status r =? z))|]; reflexivity.
Qed.

(** C9. [get_immediate_board_data ()] is [get_current_board_data (1)]: from
    every process state both give the same result or raise the same
    exception, and leave the same state behind. *)
Theorem get_immediate_board_data_is_current_1 (self : BoardShim) (w : World H) :
  get_immediate_board_data H self w = get_current_board_data H self 1 w.
Proof. reflexivity. Qed.

End BindingFacts.

(** ** Arrays *)

Lemma int64_small (v : Z) : - 2 ^ 63 <= v < 2 ^ 63 -> int64 v = v.
Proof. intros Hv. unfold int64. rewrite Z.mod_small; lia. Qed.

Lemma c_int_small (v : Z) : - 2 ^ 31 <= v < 2 ^ 31 -> c_int v = v.
Proof. intros Hv. unfold c_int. rewrite Z.mod_small; lia. Qed.

Lemma zeros_ok {A : Type} (zero : A) (n : Z) :
  0 <= n <= numpy.max_dim ->
  numpy.zeros zero n = Ok (repeat zero (Z.to_nat n)).
Proof.
  intros Hn. unfold numpy.zeros.
  destruct (Z.ltb_spec n 0); [lia|].
  destruct (Z.ltb_spec numpy.max_dim n); [lia|]. reflexivity.
Qed.

Lemma zeros_inv {A : Type} (zero : A) (n : Z) (a : list A) :
  numpy.zeros zero n = Ok a ->
  0 <= n <= numpy.max_dim /\ a = repeat zero (Z.to_nat n).
Proof.
  unfold numpy.zeros.
  destruct (Z.ltb_spec n 0); [discriminate|].
  destruct (Z.ltb_spec numpy.max_dim n); [discriminate|].
  intros [= <-]. split; [lia|reflexivity].
Qed.

Lemma zeros_negative {A : Type} (zero : A) (n : Z) :
  n < 0 ->
  numpy.zeros zero n = Raise (ValueError "negative dimensions are not allowed").
Proof.
  intros Hn. unfold numpy.zeros. destruct (Z.ltb_spec n 0); [reflexivity|lia].
Qed.

Lemma store_length {A : Type} (buf written : list A) :
  List.length (store buf written) = List.length buf.
Proof.
  unfold store. rewrite firstn_length_le; [reflexivity|].
  rewrite length_app, length_skipn. lia.
Qed.

Lemma store_one (z : Z) (written : list Z) :
  exists c, store [z] written = [c].
Proof.
  pose proof (store_length [z] written) as Hl.
  destruct (store [z] written) as [|c [|c' rest]]; simpl in Hl; try discriminate.
  exists c. reflexivity.
Qed.

Lemma slice0_length {A : Type} (a : list A) (stop : Z) :
  0 <= stop <= Z.of_nat (List.length a) ->
  List.length (numpy.slice0 a stop) = Z.to_nat stop.
Proof.
  intros Hs. unfold numpy.slice0. destruct (Z.ltb_spec stop 0); [lia|].
  rewrite firstn_length_le; lia.
Qed.

Lemma reshape_ok {A : Type} (a : list A) (r c : Z) :
  0 <= r -> 0 <= c -> r * c = Z.of_nat (List.length a) ->
  numpy.reshape a r c = Ok (numpy.mk_ndarray2 (Z.to_nat r) (Z.to_nat c) a).
Proof.
  intros Hr Hc Hsize. unfold numpy.reshape.
  destruct (Z.ltb_spec r 0); [lia|]. destruct (Z.ltb_spec c 0); [lia|].
  cbn [andb]. rewrite (proj2 (Z.eqb_eq _ _) Hsize). reflexivity.
Qed.

Lemma reshape_inv {A : Type} (a : list A) (r c : Z) (m : numpy.ndarray2 A) :
  numpy.reshape a r c = Ok m -> 0 <= r -> 0 <= c ->
  m = numpy.mk_ndarray2 (Z.to_nat r) (Z.to_nat c) a /\
  r * c = Z.of_nat (List.length a).
Proof.
  unfold numpy.reshape. intros Hm Hr Hc.
  destruct (Z.ltb_spec r 0); [lia|]. destruct (Z.ltb_spec c 0); [lia|].
  cbn [andb] in Hm. destruct (Z.eqb_spec (r * c) (Z.of_nat (List.length a))); [|discriminate].
  injection Hm as <-. auto.
Qed.

Lemma column_stack_inv {A B : Type} (conv : A -> B)
      (m : numpy.ndarray2 A) (v : list B) (m' : numpy.ndarray2 B) :
  numpy.column_stack conv m v = Ok m' ->
  numpy.rows m = List.length v /\
  m' = numpy.mk_ndarray2 (numpy.rows m) (S (numpy.cols m))
                         (numpy.stack_cells conv (numpy.cols m) (numpy.cells m) v).
Proof.
  unfold numpy.column_stack. destruct (Nat.eqb_spec (numpy.rows m) (List.length v)); [|discriminate].
  intros [= <-]. auto.
Qed.

Lemma stack_cells_length {A B : Type} (conv : A -> B) (width : nat)
      (column : list B) :
  forall data : list A,
    List.length data = (List.length column * width)%nat ->
    List.length (numpy.stack_cells conv width data column) =
    (List.length column * S width)%nat.
Proof.
  induction column as [|t column IH]; intros data Hd; simpl; [reflexivity|].
  simpl in Hd.
  rewrite length_app, length_map, firstn_length_le by lia. simpl.
  rewrite IH; [lia|]. rewrite length_skipn. lia.
Qed.

(** Row [i] of a stacked table: row [i] of the data, converted, then entry
    [i] of the column. *)
Lemma stack_cells_row {A B : Type} (conv : A -> B) (width : nat) (default : B)
      (column : list B) :
  forall (data : list A) (i : nat),
    List.length data = (List.length column * width)%nat ->
    (i < List.length column)%nat ->
    firstn (S width) (skipn (i * S width) (numpy.stack_cells conv width data column)) =
    map conv (firstn width (skipn (i * width) data)) ++ [nth i column default].
Proof.
  induction column as [|t column IH]; intros data i Hd Hi; simpl in Hi; [lia|].
  simpl in Hd.
  assert (Hw : List.length (map conv (firstn width data)) = width)
    by (rewrite length_map, firstn_length_le; lia).
  destruct i as [|i].
  - simpl skipn. cbn [numpy.stack_cells nth].
    change (S width) with (1 + width)%nat.
    rewrite <- Hw at 1.
    replace (1 + List.length (map conv (firstn width data)))%nat
      with (List.length (map conv (firstn width data)) + 1)%nat by lia.
    rewrite firstn_app_2. reflexivity.
  - cbn [numpy.stack_cells nth].
    replace (S i * S width)%nat
      with (i * S width + List.length (map conv (firstn width data) ++ [t]))%nat
      by (rewrite length_app, Hw; simpl; lia).
    replace (map conv (firstn width data) ++
             t :: numpy.stack_cells conv width (skipn width data) column)
      with ((map conv (firstn width data) ++ [t]) ++
            numpy.stack_cells conv width (skipn width data) column)
      by (rewrite <- app_assoc; reflexivity).
    rewrite <- skipn_skipn.
    rewrite (skipn_app (List.length (map conv (firstn width data) ++ [t]))).
    rewrite skipn_all, Nat.sub_diag, skipn_O, app_nil_l.
    rewrite IH; [|rewrite length_skipn; lia|lia].
    rewrite skipn_skipn.
    replace (i * width + width)%nat with (S i * width)%nat by lia.
    reflexivity.
Qed.

Section DataFacts.

Variable H : Host.

(** ** Stepping through a method *)

Lemma bind_lift {A B : Type} (o : outcome A) (k : A -> M H B) (w : World H) :
  bind H (lift H o) k w = match o with Ok a => k a w | Raise e => (Raise e, w) end.
Proof. unfold bind, lift. destruct o; reflexivity. Qed.

Lemma bind_get_instance {B : Type} (k : DLL -> M H B) (w w1 : World H) (d : DLL) :
  get_instance H w = (Ok d, w1) -> bind H (get_instance H) k w = k d w1.
Proof. intros Hget. unfold bind. rewrite Hget. reflexivity. Qed.

Lemma bind_call {B : Type} (d : DLL) (c : native_call)
      (k : native_reply (F32 H) (F64 H) -> M H B) (w : World H) :
  bind H (call H d c) k w = k (answer H w c) (after_call H w c).
Proof.
  unfold bind, call, after_call, answer.
  destruct (native H (native_state w) c) as [r s]. reflexivity.
Qed.

Lemma answer_frame (w w1 : World H) (c : native_call) :
  native_state w1 = native_state w -> answer H w1 c = answer H w c.
Proof. unfold answer. intros ->. reflexivity. Qed.

Lemma bind_check_status {B : Type} (ok res : Z) (message : string)
      (k : unit -> M H B) (w : World H) :
  Enum.by_name (StreamExitCodes H) "STATUS_OK" = Some ok ->
  bind H (check_status H res message) k w =
  if res =? ok then k tt w else (Raise (BrainFlowError_init H message res), w).
Proof.
  intros Hok. unfold bind at 1. rewrite (check_status_eq H ok res message w Hok).
  destruct (res =? ok); reflexivity.
Qed.

(** What [get_current_board_data] does when the native call succeeds and
    reports a count within the request. *)
Lemma get_current_board_data_run
      (self : BoardShim) (n ok : Z) (w w1 : World H) (d : DLL) :
  package_length self = CYTHON.package_length ->
  0 <= n -> n * CYTHON.package_length <= numpy.max_dim ->
  get_instance H w = (Ok d, w1) ->
  Enum.by_name (StreamExitCodes H) "STATUS_OK" = Some ok ->
  status (answer H w (n_get_current_board_data (c_int n))) = ok ->
  (forall k, count_written (answer H w (n_get_current_board_data (c_int n))) = Some k ->
             0 <= k <= n) ->
  get_current_board_data H self n w =
  (Ok (Some
         (numpy.mk_ndarray2
            (Z.to_nat (reported H (answer H w (n_get_current_board_data (c_int n)))))
            13
            (numpy.stack_cells
               (promote H) 12
               (numpy.slice0
                  (filled (zero32 H) (n * 12)
                          (data_written (answer H w (n_get_current_board_data (c_int n)))))
                  (reported H (answer H w (n_get_current_board_data (c_int n))) * 12))
               (numpy.slice0
                  (filled (zero64 H) n
                          (time_written (answer H w (n_get_current_board_data (c_int n)))))
                  (reported H (answer H w (n_get_current_board_data (c_int n)))))))),
   after_call H w1 (n_get_current_board_data (c_int n))).
Proof.
  intros Hpl Hn Hmax Hget Hok Hstatus Hrange.
  pose proof (get_instance_frame H w) as [Hs Hl]. rewrite Hget in Hs, Hl. simpl in Hs, Hl.
  unfold CYTHON.package_length in *. unfold numpy.max_dim in Hmax.
  unfold get_current_board_data. rewrite Hpl.
  rewrite bind_lift, (zeros_ok (zero32 H) (n * 12)) by (unfold numpy.max_dim; lia).
  cbv beta iota.
  rewrite bind_lift, (zeros_ok (zero64 H) n) by (unfold numpy.max_dim; lia).
  cbv beta iota.
  rewrite bind_lift. change (numpy.zeros 0 1) with (Ok [0]). cbv beta iota.
  rewrite (bind_get_instance _ w w1 d Hget), bind_call, (answer_frame w w1 _ Hs).
  set (r := answer H w (n_get_current_board_data (c_int n))) in *.
  rewrite (bind_check_status ok _ _ _ _ Hok), Hstatus, Z.eqb_refl.
  cbv beta iota.
  assert (Hc : 0 <= reported H r <= n).
  { unfold reported. destruct (count_written r) as [k|]; [apply Hrange; reflexivity|lia]. }
  assert (Hsz : store [0] (written_int64 H r) = [reported H r]).
  { unfold written_int64, reported. destruct (count_written r) as [k|] eqn:Ek; [|reflexivity].
    specialize (Hrange k eq_refl). rewrite int64_small by lia. reflexivity. }
  rewrite Hsz. cbv beta iota. rewrite int64_small by lia.
  fold (filled (zero32 H) (n * 12) (data_written r)).
  fold (filled (zero64 H) n (time_written r)).
  set (data := filled (zero32 H) (n * 12) (data_written r)).
  set (time := filled (zero64 H) n (time_written r)).
  assert (Hdata : List.length data = Z.to_nat (n * 12))
    by (unfold data, filled; rewrite store_length, repeat_length; reflexivity).
  assert (Htime : List.length time = Z.to_nat n)
    by (unfold time, filled; rewrite store_length, repeat_length; reflexivity).
  rewrite bind_lift, reshape_ok; [| lia | lia | rewrite slice0_length; lia].
  cbv beta iota.
  rewrite bind_lift. unfold numpy.column_stack. cbn [numpy.rows numpy.cols numpy.cells].
  rewrite slice0_length by lia. rewrite Nat.eqb_refl.
  reflexivity.
Qed.

Lemma get_current_board_data_success
      (self : BoardShim) (n ok : Z) (w w1 : World H) (d : DLL) :
  package_length self = CYTHON.package_length ->
  0 <= n -> n * CYTHON.package_length <= numpy.max_dim ->
  get_instance H w = (Ok d, w1) ->
  Enum.by_name (StreamExitCodes H) "STATUS_OK" = Some ok ->
  status (answer H w (n_get_current_board_data (c_int n))) = ok ->
  (forall k, count_written (answer H w (n_get_current_board_data (c_int n))) = Some k ->
             0 <= k <= n) ->
  fst (get_current_board_data H self n w) =
  Ok (Some
        (numpy.mk_ndarray2
           (Z.to_nat (reported H (answer H w (n_get_current_board_data (c_int n)))))
           13
           (numpy.stack_cells
              (promote H) 12
              (numpy.slice0
                 (filled (zero32 H) (n * 12)
                         (data_written (answer H w (n_get_current_board_data (c_int n)))))
                 (reported H (answer H w (n_get_current_board_data (c_int n))) * 12))
              (numpy.slice0
                 (filled (zero64 H) n
                         (time_written (answer H w (n_get_current_board_data (c_int n)))))
                 (reported H (answer H w (n_get_current_board_data (c_int n)))))))).
Proof.
  intros Hpl Hn Hmax Hget Hok Hstatus Hrange.
  rewrite (get_current_board_data_run self n ok w w1 d); auto.
Qed.

(** C6. For [n >= 1], when the native call succeeds and reports a count [c]
    with [0 <= c <= n], [get_current_board_data (n)] returns a table of
    exactly [c] rows: row [i] is the [i]-th group of twelve values of the
    data buffer followed by the [i]-th timestamp. Nothing beyond the first
    [c] samples of the buffers reaches the table. *)
Theorem get_current_board_data_rows
        (self : BoardShim) (n c ok : Z) (w w1 : World H) (d : DLL) :
  constructed H self ->
  1 <= n -> n * CYTHON.package_length <= numpy.max_dim ->
  get_instance H w = (Ok d, w1) ->
  Enum.by_name (StreamExitCodes H) "STATUS_OK" = Some ok ->
  status (answer H w (n_get_current_board_data (c_int n))) = ok ->
  count_written (answer H w (n_get_current_board_data (c_int n))) = Some c ->
  0 <= c <= n ->
  exists m,
    fst (get_current_board_data H self n w) = Ok (Some m) /\
    numpy.rows m = Z.to_nat c /\
    numpy.cols m = 13%nat /\
    List.length (numpy.cells m) = (numpy.rows m * numpy.cols m)%nat /\
    forall i, (i < Z.to_nat c)%nat ->
      numpy.row m i =
      map (promote H)
          (firstn 12 (skipn (i * 12)
             (filled (zero32 H) (n * 12)
                     (data_written (answer H w (n_get_current_board_data (c_int n)))))))
      ++ [nth i (filled (zero64 H) n
                        (time_written (answer H w (n_get_current_board_data (c_int n)))))
              (zero64 H)].
Proof.
  intros Hself Hn Hmax Hget Hok Hstatus Hcount Hc.
  destruct (constructed_fields H self Hself) as (_ & Hpl & _).
  unfold CYTHON.package_length in Hmax.
  rewrite (get_current_board_data_success self n ok w w1 d Hpl ltac:(lia) Hmax Hget Hok Hstatus)
    by (intros k Hk; rewrite Hcount in Hk; injection Hk as <-; exact Hc).
  unfold reported. rewrite Hcount.
  set (data := filled (zero32 H) (n * 12) _).
  set (time := filled (zero64 H) n _).
  assert (Hdata : List.length data = Z.to_nat (n * 12))
    by (unfold data, filled; rewrite store_length, repeat_length; reflexivity).
  assert (Htime : List.length time = Z.to_nat n)
    by (unfold time, filled; rewrite store_length, repeat_length; reflexivity).
  assert (Hsd : List.length (numpy.slice0 data (c * 12)) = (Z.to_nat c * 12)%nat)
    by (rewrite slice0_length; lia).
  assert (Hst : List.length (numpy.slice0 time c) = Z.to_nat c)
    by (rewrite slice0_length; lia).
  eexists. split; [reflexivity|]. cbn [numpy.rows numpy.cols numpy.cells].
  split; [reflexivity|]. split; [reflexivity|]. split.
  - rewrite stack_cells_length; rewrite Hst; [reflexivity|exact Hsd].
  - intros i Hi. unfold numpy.row. cbn [numpy.rows numpy.cols numpy.cells].
    rewrite (stack_cells_row (promote H) 12 (zero64 H)); [| rewrite Hst; exact Hsd | lia].
    f_equal.
    + f_equal. unfold numpy.slice0. destruct (Z.ltb_spec (c * 12) 0); [lia|].
      rewrite skipn_firstn_comm, firstn_firstn. f_equal. lia.
    + f_equal. unfold numpy.slice0. destruct (Z.ltb_spec c 0); [lia|].
      rewrite nth_firstn. destruct (Nat.ltb_spec i (Z.to_nat c)); [reflexivity|lia].
Qed.

(** C8. [get_current_board_data] never returns [None]: the array
    [current_size] has one cell before the native call and still has one
    after it, so the branch on [len (current_size) == 0] is not taken. For
    [n >= 1], when the native call returns [STATUS_OK] with a count within
    [0 .. n], the method returns a table. *)
Theorem get_current_board_data_never_none
        (self : BoardShim) (n : Z) (w : World H) :
  1 <= n ->
  fst (get_current_board_data H self n w) <> Ok None /\
  (forall ok d w1,
      constructed H self ->
      n * CYTHON.package_length <= numpy.max_dim ->
      get_instance H w = (Ok d, w1) ->
      Enum.by_name (StreamExitCodes H) "STATUS_OK" = Some ok ->
      status (answer H w (n_get_current_board_data (c_int n))) = ok ->
      (forall k, count_written (answer H w (n_get_current_board_data (c_int n))) = Some k ->
                 0 <= k <= n) ->
      exists m, fst (get_current_board_data H self n w) = Ok (Some m)).
Proof.
  intros Hn. split.
  - unfold get_current_board_data.
    rewrite bind_lift. destruct (numpy.zeros (zero32 H) _); [|simpl; discriminate].
    rewrite bind_lift. destruct (numpy.zeros (zero64 H) n); [|simpl; discriminate].
    rewrite bind_lift. change (numpy.zeros 0 1) with (Ok [0]). cbv beta iota.
    unfold bind at 1. destruct (get_instance H w) as [[d|e] w1]; [|simpl; discriminate].
    rewrite bind_call.
    set (r := answer H w1 (n_get_current_board_data (c_int n))).
    unfold bind at 1. destruct (check_status H (status r) _ _) as [[[]|e] w2];
      [|simpl; discriminate].
    destruct (store_one 0 (written_int64 H r)) as [c ->].
    rewrite bind_lift. destruct (numpy.reshape _ c (package_length self));
      [|simpl; discriminate].
    rewrite bind_lift. destruct (numpy.column_stack _ _ _); simpl; discriminate.
  - intros ok d w1 Hself Hmax Hget Hok Hstatus Hrange.
    destruct (constructed_fields H self Hself) as (_ & Hpl & _).
    eexists.
    apply (get_current_board_data_success self n ok w w1 d Hpl ltac:(lia) Hmax Hget Hok Hstatus Hrange).
Qed.

(** C2, as the code has it. A negative [n] makes [get_current_board_data]
    raise [ValueError] while it allocates its arrays, before the library is
    touched and with the process state unchanged. For [n = 0] the call goes
    to the native library and its status decides: [STATUS_OK] with no
    sample reported gives an empty table (zero rows, not [None]); any other
    status raises [BrainFlowError] with that status and the name of its
    member, or, when the status is no member of the enumeration, the
    [ValueError] of the lookup in the constructor of [BrainFlowError]. *)
Theorem get_current_board_data_nonpositive
        (self : BoardShim) (n : Z) (w : World H) :
  constructed H self ->
  n <= 0 ->
  (n < 0 ->
   get_current_board_data H self n w =
   (Raise (ValueError "negative dimensions are not allowed"), w)) /\
  (n = 0 ->
   forall ok d w1,
     get_instance H w = (Ok d, w1) ->
     Enum.by_name (StreamExitCodes H) "STATUS_OK" = Some ok ->
     (status (answer H w (n_get_current_board_data 0)) = ok ->
      (forall k, count_written (answer H w (n_get_current_board_data 0)) = Some k -> k = 0) ->
      fst (get_current_board_data H self n w) = Ok (Some (numpy.mk_ndarray2 0 13 []))) /\
     (status (answer H w (n_get_current_board_data 0)) <> ok ->
      (forall kind,
          Enum.by_value (StreamExitCodes H)
                        (status (answer H w (n_get_current_board_data 0))) = Some kind ->
          fst (get_current_board_data H self n w) =
          Raise (BrainFlowError
                   (kind ++ ":" ++
                    format_d (status (answer H w (n_get_current_board_data 0))) ++
                    " unable to get current data")%string
                   (status (answer H w (n_get_current_board_data 0)))))
      /\
      (Enum.by_value (StreamExitCodes H)
                     (status (answer H w (n_get_current_board_data 0))) = None ->
       fst (get_current_board_data H self n w) =
       Raise (ValueError
                (format_d (status (answer H w (n_get_current_board_data 0))) ++
                 " is not a valid StreamExitCodes")%string)))).
Proof.
  intros Hself Hn.
  destruct (constructed_fields H self Hself) as (_ & Hpl & _).
  unfold CYTHON.package_length in Hpl. split.
  - intros Hneg. unfold get_current_board_data.
    rewrite bind_lift, Hpl, zeros_negative by lia. reflexivity.
  - intros -> ok d w1 Hget Hok. split.
    + intros Hstatus Hzero.
      rewrite (get_current_board_data_success self 0 ok w w1 d);
        try assumption; try reflexivity; try (unfold numpy.max_dim; simpl; lia).
      * unfold reported. change (c_int 0) with 0.
        destruct (count_written _) as [k|]; [rewrite (Hzero k eq_refl)|]; reflexivity.
      * intros k Hk. rewrite (Hzero k Hk). lia.
    + intros Hstatus.
      assert (Hraise : fst (get_current_board_data H self 0 w) =
                       Raise (BrainFlowError_init H "unable to get current data"
                                (status (answer H w (n_get_current_board_data 0)))));
        [|split; [intros kind Hkind|intros Hnone]; rewrite Hraise;
          [rewrite (BrainFlowError_init_member H _ kind _ Hkind)
          |rewrite (BrainFlowError_init_unknown H _ _ Hnone)]; reflexivity].
      pose proof (get_instance_frame H w) as [Hs Hl]. rewrite Hget in Hs, Hl. simpl in Hs, Hl.
      unfold get_current_board_data.
      rewrite bind_lift, Hpl. change (numpy.zeros (zero32 H) (0 * 12)) with (Ok (@nil (F32 H))).
      cbv beta iota.
      rewrite bind_lift. change (numpy.zeros (zero64 H) 0) with (Ok (@nil (F64 H))).
      cbv beta iota.
      rewrite bind_lift. change (numpy.zeros 0 1) with (Ok [0]). cbv beta iota.
      rewrite (bind_get_instance _ w w1 d Hget), bind_call, (answer_frame w w1 _ Hs).
      rewrite (bind_check_status ok _ _ _ _ Hok).
      change (c_int 0) with 0.
      destruct (Z.eqb_spec (status (answer H w (n_get_current_board_data 0))) ok);
        [contradiction|reflexivity].
Qed.

Lemma bind_ok_inv {A B : Type} (c : M H A) (k : A -> M H B) (w : World H) (b : B) :
  fst (bind H c k w) = Ok b ->
  exists a w1, c w = (Ok a, w1) /\ fst (k a w1) = Ok b.
Proof.
  unfold bind. destruct (c w) as [[a|e] w1]; simpl; [eauto|discriminate].
Qed.

(** C1, as the code has it. A table returned by [get_board_data ()] has as
    many rows as [get_board_data_count ()] reports at the start of the call
    and [package_length + 1] = 13 columns: each row is the twelve values of
    one package followed by its timestamp. *)
Theorem get_board_data_shape
        (self : BoardShim) (w : World H) (m : numpy.ndarray2 (F64 H)) :
  constructed H self ->
  fst (get_board_data H self w) = Ok m ->
  exists count,
    fst (get_board_data_count H self w) = Ok count /\
    Z.of_nat (numpy.rows m) = count /\
    Z.of_nat (numpy.cols m) = package_length self + 1 /\
    numpy.cols m = 13%nat /\
    List.length (numpy.cells m) = (numpy.rows m * numpy.cols m)%nat /\
    exists (data : list (F32 H)) (time : list (F64 H)),
      List.length data = (numpy.rows m * 12)%nat /\
      List.length time = numpy.rows m /\
      forall i, (i < numpy.rows m)%nat ->
        numpy.row m i =
        map (promote H) (firstn 12 (skipn (i * 12) data)) ++ [nth i time (zero64 H)].
Proof.
  intros Hself Hm.
  destruct (constructed_fields H self Hself) as (_ & Hpl & _).
  unfold CYTHON.package_length in Hpl.
  unfold get_board_data in Hm. rewrite Hpl in Hm.
  apply bind_ok_inv in Hm as (count & w1 & Hcount & Hm).
  rewrite bind_lift in Hm.
  destruct (numpy.zeros (zero64 H) count) as [time0|] eqn:Et; [|discriminate].
  apply zeros_inv in Et as [Hrange ->].
  rewrite bind_lift in Hm.
  destruct (numpy.zeros (zero32 H) (int64 (count * 12))) as [data0|] eqn:Ed; [|discriminate].
  apply bind_ok_inv in Hm as (d & w2 & Hget & Hm).
  rewrite bind_call in Hm.
  apply bind_ok_inv in Hm as ([] & w3 & Hcs & Hm).
  rewrite bind_lift in Hm.
  set (r := answer H w2 (n_get_board_data (c_int count))) in *.
  destruct (numpy.reshape (store data0 (data_written r)) count 12) as [m1|] eqn:Er;
    [|discriminate].
  apply reshape_inv in Er as [-> Hsize]; [|lia|lia].
  unfold lift in Hm. simpl fst in Hm.
  apply column_stack_inv in Hm as [Hrows ->].
  cbn [numpy.rows numpy.cols numpy.cells] in *.
  exists count. rewrite Hcount, Hpl. repeat split; try reflexivity; try lia.
  - rewrite stack_cells_length; rewrite <- Hrows; [reflexivity|lia].
  - exists (store data0 (data_written r)),
           (store (repeat (zero64 H) (Z.to_nat count)) (time_written r)).
    split; [lia|]. split; [auto|].
    intros i Hi. unfold numpy.row. cbn [numpy.rows numpy.cols numpy.cells].
    apply stack_cells_row; [rewrite <- Hrows|]; lia.
Qed.

End DataFacts.

(** Counterexample to C1 as stated: with two samples waiting, the table
    has 13 columns, which is not [num_eeg_channels + 1] = 9. *)
Lemma get_board_data_not_9_columns :
  exists m,
    fst (get_board_data Synthetic.host Synthetic.shim Synthetic.world) = Ok m /\
    numpy.rows m = 2%nat /\
    numpy.cols m = 13%nat /\
    Z.of_nat (numpy.cols m) <> num_eeg_channels Synthetic.shim + 1.
Proof.
  exists Synthetic.table. split; [reflexivity|].
  split; [reflexivity|]. split; [reflexivity|]. discriminate.
Qed.

Lemma synthetic_shim_constructed : constructed Synthetic.host Synthetic.shim.
Proof. exists 0, Synthetic.port, Synthetic.world. reflexivity. Qed.

(** ** The count call *)


Section StatusFacts.

Variable H : Host.

Hypothesis STATUS_OK_zero : Enum.by_name (StreamExitCodes H) "STATUS_OK" = Some 0.

(** The content of a one-cell [int64] array after the native library had
    the chance to write to it. *)
Lemma count_cell (r : native_reply (F32 H) (F64 H)) :
  store [0] (written_int64 H r) =
  [match count_written r with Some k => int64 k | None => 0 end].
Proof. unfold written_int64. destruct (count_written r); reflexivity. Qed.

Lemma get_board_data_count_run (self : BoardShim) (w w1 : World H) (d : DLL) :
  get_instance H w = (Ok d, w1) ->
  get_board_data_count H self w =
  if status (answer H w n_get_board_data_count) =? 0
  then (Ok (match count_written (answer H w n_get_board_data_count) with
            | Some k => int64 k | None => 0 end),
        after_call H w1 n_get_board_data_count)
  else (Raise (BrainFlowError_init H "unable to obtain buffer size"
                                   (status (answer H w n_get_board_data_count))),
        after_call H w1 n_get_board_data_count).
Proof.
  intros Hget.
  pose proof (get_instance_frame H w) as [Hs _]. rewrite Hget in Hs. simpl in Hs.
  unfold get_board_data_count.
  rewrite bind_lift. change (numpy.zeros 0 1) with (Ok [0]). cbv beta iota.
  rewrite (bind_get_instance H _ w w1 d Hget), bind_call, (answer_frame H w w1 _ Hs).
  rewrite (bind_check_status H 0 _ _ _ _ STATUS_OK_zero).
  destruct (status (answer H w n_get_board_data_count) =? 0); [|reflexivity].
  rewrite count_cell. reflexivity.
Qed.

End StatusFacts.

(** ** The sample buffer *)

Section BufferFacts.

Variable Sample : Type.

Implicit Types (b : SampleBuffer.t Sample) (s : Sample) (l r ss : list Sample).

Lemma latest_length (k : nat) l :
  List.length (SampleBuffer.latest k l) = Nat.min k (List.length l).
Proof. unfold SampleBuffer.latest. rewrite length_skipn. lia. Qed.

Lemma latest_all (k : nat) l :
  (List.length l <= k)%nat -> SampleBuffer.latest k l = l.
Proof.
  intros Hl. unfold SampleBuffer.latest.
  replace (List.length l - k)%nat with O by lia. reflexivity.
Qed.

Lemma latest_app_latest (k : nat) l r :
  SampleBuffer.latest k (SampleBuffer.latest k l ++ r) = SampleBuffer.latest k (l ++ r).
Proof.
  destruct (Nat.le_gt_cases (List.length l) k) as [Hle|Hgt].
  - rewrite (latest_all k l Hle). reflexivity.
  - unfold SampleBuffer.latest at 1 3.
    rewrite length_app, latest_length, length_app.
    replace (Nat.min k (List.length l) + List.length r - k)%nat
      with (List.length r) by lia.
    unfold SampleBuffer.latest.
    replace (List.length l + List.length r - k)%nat
      with (List.length r + (List.length l - k))%nat by lia.
    rewrite <- skipn_skipn. f_equal.
    rewrite skipn_app.
    replace (List.length l - k - List.length l)%nat with O by lia.
    reflexivity.
Qed.

Lemma push_capacity s b :
  SampleBuffer.capacity (SampleBuffer.push s b) = SampleBuffer.capacity b.
Proof.
  unfold SampleBuffer.push.
  destruct (Nat.eqb (SampleBuffer.count b) (SampleBuffer.capacity b)); reflexivity.
Qed.

(** One push keeps the latest [capacity] entries of what was retained
    followed by the new sample. *)
Lemma push_retained s b :
  (0 < SampleBuffer.capacity b)%nat ->
  (SampleBuffer.count b <= SampleBuffer.capacity b)%nat ->
  SampleBuffer.retained (SampleBuffer.push s b) =
  SampleBuffer.latest (SampleBuffer.capacity b) (SampleBuffer.retained b ++ [s]).
Proof.
  unfold SampleBuffer.push, SampleBuffer.count. intros Hpos Hle.
  destruct (Nat.eqb_spec (List.length (SampleBuffer.retained b)) (SampleBuffer.capacity b))
    as [Hfull|Hroom]; cbn [SampleBuffer.retained].
  - destruct (SampleBuffer.retained b) as [|oldest rest]; simpl in Hfull; [lia|].
    unfold SampleBuffer.latest. rewrite length_app. simpl List.length.
    replace (S (List.length rest) + 1 - SampleBuffer.capacity b)%nat with 1%nat by lia.
    reflexivity.
  - rewrite latest_all; [reflexivity|]. rewrite length_app. simpl. lia.
Qed.

Lemma push_all_retained ss :
  forall b,
    (0 < SampleBuffer.capacity b)%nat ->
    (SampleBuffer.count b <= SampleBuffer.capacity b)%nat ->
    SampleBuffer.capacity (SampleBuffer.push_all ss b) = SampleBuffer.capacity b /\
    SampleBuffer.retained (SampleBuffer.push_all ss b) =
    SampleBuffer.latest (SampleBuffer.capacity b) (SampleBuffer.retained b ++ ss).
Proof.
  induction ss as [|s ss IH]; intros b Hpos Hle.
  - simpl. rewrite app_nil_r, latest_all; auto.
  - change (SampleBuffer.push_all (s :: ss) b)
      with (SampleBuffer.push_all ss (SampleBuffer.push s b)).
    destruct (IH (SampleBuffer.push s b)) as [Hcap Hret].
    + rewrite push_capacity. exact Hpos.
    + unfold SampleBuffer.count. rewrite push_capacity, push_retained, latest_length by assumption.
      lia.
    + rewrite Hcap, Hret, push_capacity, push_retained by assumption.
      rewrite latest_app_latest, <- app_assoc. auto.
Qed.

(** C7. With a positive capacity, after a sequence of pushes longer than
    the capacity the buffer retains exactly the last [capacity] pushed
    samples in push order; at no point of the sequence does it hold more
    than [capacity] samples; and a push onto a full buffer drops the oldest
    retained sample and nothing else. *)
Theorem push_all_keeps_most_recent (capacity : nat) (pushes : list Sample) :
  (0 < capacity)%nat ->
  (capacity < List.length pushes)%nat ->
  SampleBuffer.retained (SampleBuffer.push_all pushes (SampleBuffer.empty capacity)) =
    skipn (List.length pushes - capacity) pushes /\
  SampleBuffer.count (SampleBuffer.push_all pushes (SampleBuffer.empty capacity)) = capacity /\
  (forall k,
      (SampleBuffer.count
         (SampleBuffer.push_all (firstn k pushes) (SampleBuffer.empty capacity)) <= capacity)%nat) /\
  (forall b s oldest rest,
      SampleBuffer.count b = SampleBuffer.capacity b ->
      SampleBuffer.retained b = oldest :: rest ->
      SampleBuffer.retained (SampleBuffer.push s b) = rest ++ [s]).
Proof.
  intros Hpos Hlong.
  assert (Hany : forall ss,
             SampleBuffer.retained (SampleBuffer.push_all ss (SampleBuffer.empty capacity)) =
             SampleBuffer.latest capacity ss).
  { intros ss.
    destruct (push_all_retained ss (SampleBuffer.empty capacity)) as [_ Hret];
      [exact Hpos|unfold SampleBuffer.count; simpl; lia|exact Hret]. }
  split; [apply Hany|]. split; [|split].
  - unfold SampleBuffer.count. rewrite Hany, latest_length. lia.
  - intros k. unfold SampleBuffer.count. rewrite Hany, latest_length. lia.
  - intros b s oldest rest Hfull Hret. unfold SampleBuffer.push.
    rewrite Hfull, Nat.eqb_refl. cbn [SampleBuffer.retained]. rewrite Hret. reflexivity.
Qed.

End BufferFacts.

(** ** The singleton across a session *)

Section SingletonFacts.

Variable H : Host.

Lemma preserves_bind {A B : Type} (I : World H -> Prop) (c : M H A) (k : A -> M H B) :
  preserves H I c -> (forall a, preserves H I (k a)) -> preserves H I (bind H c k).
Proof.
  intros Hc Hk w Hw. unfold bind. specialize (Hc w Hw).
  destruct (c w) as [[a|e] w1]; cbn [snd] in *; [apply Hk|]; exact Hc.
Qed.

(** When the first step cannot return, what follows it does not matter. *)
Lemma preserves_stuck {A B : Type} (I : World H -> Prop) (c : M H A) (k : A -> M H B) :
  preserves H I c -> (forall w a, I w -> fst (c w) <> Ok a) ->
  preserves H I (bind H c k).
Proof.
  intros Hc Hstuck w Hw. unfold bind. specialize (Hc w Hw). specialize (Hstuck w).
  destruct (c w) as [[a|e] w1]; cbn [fst snd] in *; [|exact Hc].
  exfalso. apply (Hstuck a Hw). reflexivity.
Qed.

Lemma preserves_lift {A : Type} (I : World H -> Prop) (o : outcome A) :
  preserves H I (lift H o).
Proof. intros w Hw. exact Hw. Qed.

Lemma preserves_ret {A : Type} (I : World H -> Prop) (a : A) :
  preserves H I (ret H a).
Proof. intros w Hw. exact Hw. Qed.

Lemma preserves_raise {A : Type} (I : World H -> Prop) (e : exn) :
  preserves H I (raise H (A := A) e).
Proof. intros w Hw. exact Hw. Qed.

Lemma preserves_check_status (I : World H -> Prop) (res : Z) (message : string) :
  preserves H I (check_status H res message).
Proof.
  intros w Hw. unfold check_status, bind, exit_code_value.
  destruct (Enum.by_name (StreamExitCodes H) "STATUS_OK"); cbn; [|exact Hw].
  destruct (negb (res =? z)); exact Hw.
Qed.

Lemma preserves_call_singleton (d : DLL) (c : native_call) :
  preserves H (singleton_ok H) (call H d c).
Proof.
  intros w Hw. unfold call. destruct (native H (native_state w) c). exact Hw.
Qed.

Lemma get_instance_singleton_ok :
  pointer_size H * 8 = 64 -> library_installed H ->
  preserves H (singleton_ok H) (get_instance H).
Proof.
  intros H64 Hinst w [[Hnone Hcalls]|[Hsome Hcalls]].
  - destruct (get_instance_first H w H64 Hinst Hnone Hcalls) as (w' & Hget & Hd & Hc).
    rewrite Hget. right. auto.
  - rewrite (get_instance_loaded H w _ Hsome). right. auto.
Qed.

Lemma get_instance_untouched :
  pointer_size H * 8 <> 64 ->
  preserves H (untouched H) (get_instance H) /\
  (forall w a, untouched H w -> fst (get_instance H w) <> Ok a).
Proof.
  intros H64.
  assert (Hrun : forall w, untouched H w ->
                   get_instance H w =
                   (Raise (Exception "You need 64-bit python to use this library"), w)).
  { intros w (Hnone & _ & _). unfold get_instance. rewrite Hnone.
    replace (pointer_size H * 8 =? 64) with false by (symmetry; apply Z.eqb_neq; exact H64).
    reflexivity. }
  split.
  - intros w Hw. rewrite (Hrun w Hw). exact Hw.
  - intros w a Hw. rewrite (Hrun w Hw). discriminate.
Qed.

Ltac preserve_singleton :=
  repeat (cbv zeta;
          first
            [ apply preserves_check_status
            | apply get_instance_singleton_ok; assumption
            | apply preserves_call_singleton
            | apply preserves_bind; [|intros ?]
            | apply preserves_lift
            | apply preserves_ret
            | apply preserves_raise
            | match goal with
              | |- preserves _ _ (match ?x with _ => _ end) => destruct x
              end ]).

Lemma run_singleton_ok (self : BoardShim) (op : operation) :
  pointer_size H * 8 = 64 -> library_installed H ->
  preserves H (singleton_ok H) (run H self op).
Proof.
  intros H64 Hinst.
  destruct op;
    unfold run, prepare_session, start_stream, stop_stream, release_session,
      get_current_board_data, get_board_data, get_board_data_count,
      enable_board_logger, disable_board_logger, enable_dev_board_logger,
      set_log_level;
    preserve_singleton.
Qed.

Lemma session_singleton_ok (ops : list (BoardShim * operation)) :
  pointer_size H * 8 = 64 -> library_installed H ->
  forall w, singleton_ok H w -> singleton_ok H (session H ops w).
Proof.
  intros H64 Hinst. induction ops as [|[self op] ops IH]; intros w Hw; [exact Hw|].
  simpl. apply IH, run_singleton_ok; assumption.
Qed.

Ltac preserve_untouched :=
  repeat (cbv zeta;
          first
            [ apply preserves_stuck; apply get_instance_untouched; assumption
            | apply preserves_bind; [apply preserves_lift|intros ?] ]).

Lemma get_board_data_count_untouched (self : BoardShim) :
  pointer_size H * 8 <> 64 ->
  preserves H (untouched H) (get_board_data_count H self) /\
  (forall w a, untouched H w -> fst (get_board_data_count H self w) <> Ok a).
Proof.
  intros H64. split.
  - unfold get_board_data_count. preserve_untouched.
  - intros w a Hw. unfold get_board_data_count.
    rewrite bind_lift. change (numpy.zeros 0 1) with (Ok [0]). cbv beta iota.
    unfold bind at 1.
    pose proof (proj2 (get_instance_untouched H64) w) as Hstuck.
    destruct (get_instance H w) as [[d|e] w1]; cbn [fst] in *; [|discriminate].
    exfalso. apply (Hstuck d Hw). reflexivity.
Qed.

Lemma run_untouched (self : BoardShim) (op : operation) :
  pointer_size H * 8 <> 64 ->
  preserves H (untouched H) (run H self op).
Proof.
  intros H64.
  destruct op; unfold run; (apply preserves_bind; [|intros ?; apply preserves_ret]).
  6:{ unfold get_board_data.
      apply preserves_stuck; apply get_board_data_count_untouched; assumption. }
  all: unfold prepare_session, start_stream, stop_stream, release_session,
         get_current_board_data, get_board_data_count,
         enable_board_logger, disable_board_logger, enable_dev_board_logger,
         set_log_level;
       preserve_untouched.
Qed.

Lemma session_untouched (ops : list (BoardShim * operation)) :
  pointer_size H * 8 <> 64 ->
  forall w, untouched H w -> untouched H (session H ops w).
Proof.
  intros H64. induction ops as [|[self op] ops IH]; intros w Hw; [exact Hw|].
  simpl. apply IH, run_untouched; assumption.
Qed.

(** C10. On a 64-bit interpreter where the library is installed, after any
    history of public operations in a process, every call of
    [BoardControllerDLL.get_instance ()] returns one and the same instance,
    the one made by the first load, and [LoadLibrary] has been called at
    most once. On an interpreter that is not 64-bit, after any such history
    every call raises the exception of the size check, and no [LoadLibrary]
    call, no instance and no native call has been made. *)
Theorem get_instance_singleton
        (s : NState H) (ops : list (BoardShim * operation)) (k : nat) :
  (pointer_size H * 8 = 64 -> library_installed H ->
   fst (calls H (get_instance H) k (session H ops (process_start H s))) =
     repeat (Ok {| dll_id := 0; lib := dll_path H |}) k /\
   (List.length
      (load_calls (snd (calls H (get_instance H) k (session H ops (process_start H s)))))
    <= 1)%nat /\
   (k <> O ->
    load_calls (snd (calls H (get_instance H) k (session H ops (process_start H s)))) =
      [dll_path H])) /\
  (pointer_size H * 8 <> 64 ->
   fst (calls H (get_instance H) k (session H ops (process_start H s))) =
     repeat (Raise (Exception "You need 64-bit python to use this library")) k /\
   load_calls (snd (calls H (get_instance H) k (session H ops (process_start H s)))) = [] /\
   dll_instance (snd (calls H (get_instance H) k (session H ops (process_start H s)))) = None /\
   native_log (snd (calls H (get_instance H) k (session H ops (process_start H s)))) = []).
Proof.
  split.
  - intros H64 Hinst.
    assert (Hw : singleton_ok H (session H ops (process_start H s)))
      by (apply session_singleton_ok; [assumption|assumption|left; auto]).
    set (w := session H ops (process_start H s)) in *.
    destruct Hw as [[Hnone Hcalls]|[Hsome Hcalls]].
    + destruct k as [|k]; [simpl; rewrite Hcalls; repeat split; auto; congruence|].
      destruct (get_instance_first H w H64 Hinst Hnone Hcalls) as (w' & Hget & Hd & Hc).
      simpl. rewrite Hget, (calls_loaded H k w' _ Hd). simpl.
      rewrite Hc. simpl. repeat split; auto.
    + rewrite (calls_loaded H k w _ Hsome). simpl. rewrite Hcalls. simpl.
      repeat split; auto.
  - intros H64.
    assert (Hw : untouched H (session H ops (process_start H s)))
      by (apply session_untouched; [assumption|repeat split; reflexivity]).
    destruct Hw as (Hnone & Hcalls & Hlog).
    rewrite (calls_not_64 H k _ H64 Hnone). simpl. auto.
Qed.

End SingletonFacts.

(** ** Concrete runs on the synthetic host *)

Lemma get_board_data_shape_witness :
  constructed Synthetic.host Synthetic.shim /\
  fst (get_board_data Synthetic.host Synthetic.shim Synthetic.world) = Ok Synthetic.table /\
  exists count,
    fst (get_board_data_count Synthetic.host Synthetic.shim Synthetic.world) = Ok count /\
    Z.of_nat (numpy.rows Synthetic.table) = count /\
    Z.of_nat (numpy.cols Synthetic.table) = package_length Synthetic.shim + 1 /\
    numpy.cols Synthetic.table = 13%nat /\
    List.length (numpy.cells Synthetic.table) =
      (numpy.rows Synthetic.table * numpy.cols Synthetic.table)%nat /\
    exists (data : list Z) (time : list Z),
      List.length data = (numpy.rows Synthetic.table * 12)%nat /\
      List.length time = numpy.rows Synthetic.table /\
      forall i, (i < numpy.rows Synthetic.table)%nat ->
        numpy.row Synthetic.table i =
        map (fun x => x) (firstn 12 (skipn (i * 12) data)) ++ [nth i time 0].
Proof.
  split; [exact synthetic_shim_constructed|]. split; [reflexivity|].
  apply (get_board_data_shape Synthetic.host Synthetic.shim Synthetic.world Synthetic.table).
  - exact synthetic_shim_constructed.
  - reflexivity.
Defined.

(** Counterexample to C2 as stated: [get_current_board_data (-1)] raises
    instead of giving an empty result. *)
Lemma get_current_board_data_minus_one_raises :
  fst (get_current_board_data Synthetic.host Synthetic.shim (-1) Synthetic.world) =
  Raise (ValueError "negative dimensions are not allowed").
Proof. reflexivity. Qed.

Lemma get_current_board_data_nonpositive_witness :
  constructed Synthetic.host Synthetic.shim /\
  -1 <= 0 /\ -1 < 0 /\
  get_current_board_data Synthetic.host Synthetic.shim (-1) Synthetic.world =
    (Raise (ValueError "negative dimensions are not allowed"), Synthetic.world) /\
  0 <= 0 /\
  get_instance Synthetic.host Synthetic.world = (Ok Synthetic.dll, Synthetic.loaded_world) /\
  Enum.by_name (StreamExitCodes Synthetic.host) "STATUS_OK" = Some 0 /\
  status (answer Synthetic.host Synthetic.world (n_get_current_board_data 0)) = 0 /\
  (forall k, count_written (answer Synthetic.host Synthetic.world (n_get_current_board_data 0)) = Some k ->
             k = 0) /\
  fst (get_current_board_data Synthetic.host Synthetic.shim 0 Synthetic.world) =
    Ok (Some (numpy.mk_ndarray2 0 13 [])).
Proof.
  assert (Hget : get_instance Synthetic.host Synthetic.world =
                 (Ok Synthetic.dll, Synthetic.loaded_world)) by (reflexivity).
  assert (Hzero : forall k,
             count_written (answer Synthetic.host Synthetic.world (n_get_current_board_data 0)) = Some k ->
             k = 0) by (intros k Hk; change (Some 0 = Some k) in Hk; congruence).
  split; [exact synthetic_shim_constructed|].
  split; [lia|]. split; [lia|]. split.
  - apply (proj1 (get_current_board_data_nonpositive
                    Synthetic.host Synthetic.shim (-1) Synthetic.world
                    synthetic_shim_constructed ltac:(lia))).
    lia.
  - split; [lia|]. split; [exact Hget|]. split; [reflexivity|].
    split; [reflexivity|]. split; [exact Hzero|].
    apply (proj1 (proj2 (get_current_board_data_nonpositive
                           Synthetic.host Synthetic.shim 0 Synthetic.world
                           synthetic_shim_constructed ltac:(lia))
                        eq_refl 0 Synthetic.dll Synthetic.loaded_world Hget eq_refl)).
    + reflexivity.
    + exact Hzero.
Defined.

Lemma unsupported_board_not_constructed_witness :
  3 <> CYTHON.board_id /\
  Enum.by_name (StreamExitCodes Synthetic.host) "UNSUPPORTED_BOARD_ERROR" = Some 14 /\
  exists e,
    BoardShim_init Synthetic.host 3 Synthetic.port Synthetic.world = (Raise e, Synthetic.world) /\
    bind Synthetic.host (BoardShim_init Synthetic.host 3 Synthetic.port)
         (prepare_session Synthetic.host) Synthetic.world = (Raise e, Synthetic.world) /\
    (forall self,
        fst (BoardShim_init Synthetic.host 3 Synthetic.port Synthetic.world) <> Ok self) /\
    match encoded_port_name Synthetic.host Synthetic.port with
    | Ok stored =>
        exists kind,
          Enum.by_value (StreamExitCodes Synthetic.host) 14 = Some kind /\
          e = BrainFlowError (kind ++ ":" ++ format_d 14 ++ " unsupported board type")%string 14
    | Raise e' =>
        e = e' /\ python3 Synthetic.host = true /\
        exists message, e' = UnicodeEncodeError message
    end.
Proof.
  split; [discriminate|]. split; [reflexivity|].
  apply (unsupported_board_not_constructed Synthetic.host 3 Synthetic.port 14 Synthetic.world).
  - discriminate.
  - reflexivity.
Defined.

Example synthetic_unsupported_board :
  BoardShim_init Synthetic.host 3 Synthetic.port Synthetic.world =
  (Raise (BrainFlowError "UNSUPPORTED_BOARD_ERROR:14 unsupported board type" 14),
   Synthetic.world).
Proof. reflexivity. Qed.

(** Counterexample to C3 as stated: for board id 3 and a port name that
    is one lone surrogate, the failure is the [UnicodeEncodeError] of
    [port_name.encode ()], not the unsupported-board error. *)
Lemma unsupported_board_surrogate_port :
  3 <> CYTHON.board_id /\
  BoardShim_init Synthetic.host 3 Synthetic.lone_surrogate Synthetic.world =
  (Raise (UnicodeEncodeError "'utf-8' codec can't encode character: surrogates not allowed"),
   Synthetic.world).
Proof. split; [discriminate|reflexivity]. Qed.

Lemma start_stream_default_request_witness :
  get_instance Synthetic.host Synthetic.world = (Ok Synthetic.dll, Synthetic.loaded_world) /\
  start_stream_default = 900000 /\
  start_stream_default = 3600 * CYTHON.fs_hz /\
  CYTHON.fs_hz = 250 /\
  native_log (snd (start_stream Synthetic.host Synthetic.shim None Synthetic.world)) =
    native_log Synthetic.world ++
    [(n_start_stream 900000,
      fst (native Synthetic.host (native_state Synthetic.world) (n_start_stream 900000)))].
Proof.
  split; [reflexivity|].
  apply (start_stream_default_request Synthetic.host Synthetic.shim
           Synthetic.world Synthetic.loaded_world Synthetic.dll).
  reflexivity.
Defined.

(** On the synthetic host a refused [start_stream] surfaces as the named
    error, and a drained backlog as a table. *)
Example synthetic_start_stream_refused :
  fst (run Synthetic.host Synthetic.shim (op_start_stream (Some 0)) Synthetic.world) =
  Raise (BrainFlowError "INVALID_BUFFER_SIZE_ERROR:9 unable to start streaming session" 9).
Proof. reflexivity. Qed.

Lemma get_current_board_data_rows_witness :
  constructed Synthetic.host Synthetic.shim /\
  1 <= 3 /\
  3 * CYTHON.package_length <= numpy.max_dim /\
  get_instance Synthetic.host Synthetic.world = (Ok Synthetic.dll, Synthetic.loaded_world) /\
  Enum.by_name (StreamExitCodes Synthetic.host) "STATUS_OK" = Some 0 /\
  status (answer Synthetic.host Synthetic.world (n_get_current_board_data (c_int 3))) = 0 /\
  count_written (answer Synthetic.host Synthetic.world (n_get_current_board_data (c_int 3))) = Some 2 /\
  0 <= 2 <= 3 /\
  exists m,
    fst (get_current_board_data Synthetic.host Synthetic.shim 3 Synthetic.world) = Ok (Some m) /\
    numpy.rows m = Z.to_nat 2 /\
    numpy.cols m = 13%nat /\
    List.length (numpy.cells m) = (numpy.rows m * numpy.cols m)%nat /\
    forall i, (i < Z.to_nat 2)%nat ->
      numpy.row m i =
      map (promote Synthetic.host)
          (firstn 12 (skipn (i * 12)
             (filled (zero32 Synthetic.host) (3 * 12)
                (data_written (answer Synthetic.host Synthetic.world
                                      (n_get_current_board_data (c_int 3)))))))
      ++ [nth i (filled (zero64 Synthetic.host) 3
                        (time_written (answer Synthetic.host Synthetic.world
                                              (n_get_current_board_data (c_int 3)))))
              (zero64 Synthetic.host)].
Proof.
  assert (Hget : get_instance Synthetic.host Synthetic.world =
                 (Ok Synthetic.dll, Synthetic.loaded_world)) by (reflexivity).
  split; [exact synthetic_shim_constructed|]. split; [lia|].
  split; [unfold CYTHON.package_length, numpy.max_dim; lia|]. split; [exact Hget|].
  split; [reflexivity|]. split; [reflexivity|]. split; [reflexivity|]. split; [lia|].
  apply (get_current_board_data_rows Synthetic.host Synthetic.shim 3 2 0
           Synthetic.world Synthetic.loaded_world Synthetic.dll
           synthetic_shim_constructed).
  - lia.
  - unfold CYTHON.package_length, numpy.max_dim; lia.
  - exact Hget.
  - reflexivity.
  - reflexivity.
  - reflexivity.
  - lia.
Defined.

Example synthetic_latest_three :
  fst (get_current_board_data Synthetic.host Synthetic.shim 3 Synthetic.world) =
  Ok (Some Synthetic.table).
Proof. reflexivity. Qed.

Lemma push_all_keeps_most_recent_witness :
  (0 < 2)%nat /\
  (2 < List.length Synthetic.burst)%nat /\
  SampleBuffer.retained (SampleBuffer.push_all Synthetic.burst (SampleBuffer.empty 2)) =
    skipn (List.length Synthetic.burst - 2) Synthetic.burst /\
  SampleBuffer.count (SampleBuffer.push_all Synthetic.burst (SampleBuffer.empty 2)) = 2%nat /\
  (forall k,
      (SampleBuffer.count
         (SampleBuffer.push_all (firstn k Synthetic.burst) (SampleBuffer.empty 2)) <= 2)%nat) /\
  (forall (b : SampleBuffer.t Z) s oldest rest,
      SampleBuffer.count b = SampleBuffer.capacity b ->
      SampleBuffer.retained b = oldest :: rest ->
      SampleBuffer.retained (SampleBuffer.push s b) = rest ++ [s]).
Proof.
  split; [lia|]. split; [simpl; lia|].
  apply (push_all_keeps_most_recent Z 2%nat Synthetic.burst).
  - lia.
  - simpl. lia.
Defined.

Example synthetic_eviction :
  SampleBuffer.retained (SampleBuffer.push_all Synthetic.burst (SampleBuffer.empty 2)) =
  [30; 40].
Proof. reflexivity. Qed.

Lemma get_current_board_data_never_none_witness :
  1 <= 1 /\
  fst (get_current_board_data Synthetic.host Synthetic.shim 1 Synthetic.world) <> Ok None /\
  exists m, fst (get_current_board_data Synthetic.host Synthetic.shim 1 Synthetic.world) = Ok (Some m).
Proof.
  split; [lia|].
  pose proof (get_current_board_data_never_none
                Synthetic.host Synthetic.shim 1 Synthetic.world ltac:(lia)) as [Hnone Hsome].
  split; [exact Hnone|].
  apply (Hsome 0 Synthetic.dll Synthetic.loaded_world synthetic_shim_constructed).
  - unfold CYTHON.package_length, numpy.max_dim; lia.
  - reflexivity.
  - reflexivity.
  - reflexivity.
  - intros k Hk. change (Some 1 = Some k) in Hk. injection Hk as <-. lia.
Defined.

Lemma get_instance_singleton_witness :
  pointer_size Synthetic.host * 8 = 64 /\
  library_installed Synthetic.host /\
  fst (calls Synthetic.host (get_instance Synthetic.host) 3
             (session Synthetic.host [(Synthetic.shim, op_get_board_data)]
                      (process_start Synthetic.host Synthetic.two_samples))) =
    repeat (Ok Synthetic.dll) 3 /\
  pointer_size Synthetic.host32 * 8 <> 64 /\
  fst (calls Synthetic.host32 (get_instance Synthetic.host32) 3
             (session Synthetic.host32 [(Synthetic.shim, op_get_board_data)]
                      (process_start Synthetic.host32 Synthetic.two_samples))) =
    repeat (Raise (Exception "You need 64-bit python to use this library")) 3.
Proof.
  assert (Hinst : library_installed Synthetic.host)
    by (exists bound_symbols; split; reflexivity).
  split; [reflexivity|]. split; [exact Hinst|]. split.
  - apply (proj1 (get_instance_singleton Synthetic.host Synthetic.two_samples
                    [(Synthetic.shim, op_get_board_data)] 3) eq_refl Hinst).
  - split; [discriminate|].
    apply (proj2 (get_instance_singleton Synthetic.host32 Synthetic.two_samples
                    [(Synthetic.shim, op_get_board_data)] 3)).
    discriminate.
Defined.

(** * Further properties of the binding *)

(** ** A failing status, whatever the native library does *)

Section FailureFacts.

Variable H : Host.

Hypothesis STATUS_OK_zero : Enum.by_name (StreamExitCodes H) "STATUS_OK" = Some 0.

Lemma first_failure_app (a b : list (native_call * native_reply (F32 H) (F64 H))) :
  first_failure H (a ++ b) =
  match first_failure H a with
  | Some s => Some s
  | None => first_failure H b
  end.
Proof.
  unfold first_failure. induction a as [|[c r] a IH]; [reflexivity|].
  cbn [app map find snd]. destruct (negb (status r =? 0)); [reflexivity|exact IH].
Qed.

Lemma fails_by_status_quiet {A : Type} (c : M H A) :
  (forall w, native_log (snd (c w)) = native_log w) ->
  forall w, fails_by_status H c w.
Proof.
  intros Hquiet w. exists []. rewrite app_nil_r. split; [apply Hquiet|].
  intros s Hs. discriminate.
Qed.

Lemma fails_by_status_bind {A B : Type} (c : M H A) (k : A -> M H B) :
  (forall w, fails_by_status H c w) ->
  (forall a w, fails_by_status H (k a) w) ->
  forall w, fails_by_status H (bind H c k) w.
Proof.
  intros Hc Hk w. destruct (Hc w) as (made & Hlog & Hfail).
  unfold fails_by_status, bind.
  destruct (c w) as [[a|e] w1] eqn:Ecw; cbn [fst snd] in *; cbv beta iota.
  - destruct (Hk a w1) as (made' & Hlog' & Hfail').
    exists (made ++ made'). rewrite Hlog', Hlog, app_assoc. split; [reflexivity|].
    intros s Hs. rewrite first_failure_app in Hs.
    destruct (first_failure H made) as [s0|].
    + destruct (Hfail s0 eq_refl) as [[message Hbad] _]. discriminate.
    + destruct (Hfail' s Hs) as [Hbad (before & c0 & r & -> & Hr)].
      split; [exact Hbad|].
      exists (made ++ before), c0, r. rewrite app_assoc. auto.
  - exists made. split; [exact Hlog|].
    intros s Hs. destruct (Hfail s Hs) as [[message [= ->]] Hlast]. eauto.
Qed.

Lemma fails_by_status_lift {A : Type} (o : outcome A) (w : World H) :
  fails_by_status H (lift H o) w.
Proof. revert w. apply fails_by_status_quiet. reflexivity. Qed.

Lemma fails_by_status_ret {A : Type} (a : A) (w : World H) :
  fails_by_status H (ret H a) w.
Proof. revert w. apply fails_by_status_quiet. reflexivity. Qed.

Lemma fails_by_status_raise {A : Type} (e : exn) (w : World H) :
  fails_by_status H (raise H (A := A) e) w.
Proof. revert w. apply fails_by_status_quiet. reflexivity. Qed.

Lemma fails_by_status_get_instance (w : World H) :
  fails_by_status H (get_instance H) w.
Proof.
  revert w. apply fails_by_status_quiet. intros w. apply get_instance_frame.
Qed.

(** A native call followed by its status check, and then anything. *)
Lemma fails_by_status_checked_call {B : Type} (d : DLL) (c : native_call)
      (message : string) (k : native_reply (F32 H) (F64 H) -> M H B) :
  (forall r w, fails_by_status H (k r) w) ->
  forall w,
    fails_by_status H
      (bind H (call H d c)
            (fun r => bind H (check_status H (status r) message) (fun _ => k r))) w.
Proof.
  intros Hk w. unfold fails_by_status. rewrite bind_call.
  rewrite (bind_check_status H 0 _ _ _ _ STATUS_OK_zero).
  destruct (Z.eqb_spec (status (answer H w c)) 0) as [Hst|Hst].
  - destruct (Hk (answer H w c) (after_call H w c)) as (made & Hlog & Hfail).
    exists ((c, answer H w c) :: made). split.
    + rewrite Hlog. cbn [after_call native_log]. rewrite <- app_assoc. reflexivity.
    + intros s Hs.
      assert (Hs' : first_failure H made = Some s).
      { revert Hs. unfold first_failure. cbn [map find snd]. rewrite Hst.
        cbn [Z.eqb negb]. auto. }
      destruct (Hfail s Hs') as [Hbad (before & c0 & r & -> & Hr)].
      split; [exact Hbad|].
      exists ((c, answer H w c) :: before), c0, r. auto.
  - exists [(c, answer H w c)]. split; [reflexivity|].
    intros s. unfold first_failure. cbn [map find snd fst].
    destruct (Z.eqb_spec (status (answer H w c)) 0); [contradiction|].
    cbn [negb]. intros [= <-]. split; [eauto|].
    exists [], c, (answer H w c). auto.
Qed.

Lemma fails_by_status_checked_call_end (d : DLL) (c : native_call)
      (message : string) (w : World H) :
  fails_by_status H
    (bind H (call H d c) (fun r => check_status H (status r) message)) w.
Proof.
  unfold fails_by_status.
  rewrite bind_call, (check_status_eq H 0 _ _ _ STATUS_OK_zero).
  exists [(c, answer H w c)].
  destruct (Z.eqb_spec (status (answer H w c)) 0) as [Hst|Hst];
    (split; [reflexivity|]); intros s; unfold first_failure;
    cbn [map find snd fst].
  - rewrite Hst. cbn. discriminate.
  - destruct (Z.eqb_spec (status (answer H w c)) 0); [contradiction|].
    cbn [negb]. intros [= <-]. split; [eauto|].
    exists [], c, (answer H w c). auto.
Qed.

Ltac fails_by_status :=
  repeat (cbv zeta;
          first
            [ apply fails_by_status_checked_call_end
            | apply fails_by_status_checked_call; intros ? ?
            | apply fails_by_status_get_instance
            | apply fails_by_status_lift
            | apply fails_by_status_ret
            | apply fails_by_status_raise
            | apply fails_by_status_bind; [intros ?|intros ? ?]
            | match goal with
              | |- fails_by_status _ (match ?x with _ => _ end) _ => destruct x
              end ]).

Lemma run_fails_by_status (self : BoardShim) (op : operation) (w : World H) :
  fails_by_status H (run H self op) w.
Proof.
  revert w.
  destruct op;
    unfold run, prepare_session, start_stream, stop_stream, release_session,
      get_current_board_data, get_board_data, get_board_data_count,
      enable_board_logger, disable_board_logger, enable_dev_board_logger,
      set_log_level;
    intros w; fails_by_status.
Qed.


End FailureFacts.

(** X1. Whatever the native library does, when a native call of a public
    operation returns a nonzero status the operation raises what
    [BrainFlowError (message, status)] gives: a [BrainFlowError] naming the
    member when the status is a value of [StreamExitCodes], and the
    [ValueError] of the failed enumeration lookup when it is not. The failed
    call is the last native call the operation makes. *)
Theorem failing_status_decides_exception
        (H : Host) (self : BoardShim) (op : operation) (w : World H) :
  Enum.by_name (StreamExitCodes H) "STATUS_OK" = Some 0 ->
  exists made,
    native_log (snd (run H self op w)) = native_log w ++ made /\
    forall s,
      first_failure H made = Some s ->
      (forall kind,
          Enum.by_value (StreamExitCodes H) s = Some kind ->
          exists message,
            fst (run H self op w) =
            Raise (BrainFlowError (kind ++ ":" ++ format_d s ++ " " ++ message)%string s)) /\
      (Enum.by_value (StreamExitCodes H) s = None ->
       fst (run H self op w) =
       Raise (ValueError (format_d s ++ " is not a valid StreamExitCodes")%string)) /\
      (exists before c r, made = before ++ [(c, r)] /\ status r = s).
Proof.
  intros Hok.
  destruct (run_fails_by_status H Hok self op w) as (made & Hlog & Hfail).
  exists made. split; [exact Hlog|].
  intros s Hs. destruct (Hfail s Hs) as [[message Hbad] Hlast]. split; [|split].
  - intros kind Hkind. exists message.
    rewrite Hbad, (BrainFlowError_init_member H message kind s Hkind). reflexivity.
  - intros Hnone. rewrite Hbad, (BrainFlowError_init_unknown H message s Hnone).
    reflexivity.
  - exact Hlast.
Qed.

Lemma failing_status_decides_exception_witness :
  Enum.by_name (StreamExitCodes Synthetic.stray_host) "STATUS_OK" = Some 0 /\
  exists made,
    native_log (snd (run Synthetic.stray_host Synthetic.shim op_stop_stream
                         (process_start Synthetic.stray_host Synthetic.two_samples))) =
      native_log (process_start Synthetic.stray_host Synthetic.two_samples) ++ made /\
    forall s,
      first_failure Synthetic.stray_host made = Some s ->
      (forall kind,
          Enum.by_value (StreamExitCodes Synthetic.stray_host) s = Some kind ->
          exists message,
            fst (run Synthetic.stray_host Synthetic.shim op_stop_stream
                     (process_start Synthetic.stray_host Synthetic.two_samples)) =
            Raise (BrainFlowError (kind ++ ":" ++ format_d s ++ " " ++ message)%string s)) /\
      (Enum.by_value (StreamExitCodes Synthetic.stray_host) s = None ->
       fst (run Synthetic.stray_host Synthetic.shim op_stop_stream
                (process_start Synthetic.stray_host Synthetic.two_samples)) =
       Raise (ValueError (format_d s ++ " is not a valid StreamExitCodes")%string)) /\
      (exists before c r, made = before ++ [(c, r)] /\ status r = s).
Proof.
  split; [reflexivity|].
  apply (failing_status_decides_exception Synthetic.stray_host Synthetic.shim op_stop_stream
           (process_start Synthetic.stray_host Synthetic.two_samples)).
  reflexivity.
Defined.

Example stray_status_is_a_ValueError :
  fst (run Synthetic.stray_host Synthetic.shim op_stop_stream
           (process_start Synthetic.stray_host Synthetic.two_samples)) =
  Raise (ValueError "99 is not a valid StreamExitCodes").
Proof. reflexivity. Qed.

(** ** What an operation asks of the native library *)

Section RequestFacts.

Variable H : Host.

Lemma keeps_world {A : Type} (c : M H A) (w : World H) :
  preserves H (eq w) c -> snd (c w) = w.
Proof. intros Hc. symmetry. apply Hc. reflexivity. Qed.

Lemma snd_bind_ret {A B : Type} (c : M H A) (f : A -> B) (w : World H) :
  snd (bind H c (fun a => ret H (f a)) w) = snd (c w).
Proof. unfold bind, ret. destruct (c w) as [[a|e] w1]; reflexivity. Qed.


Ltac neutral :=
  repeat (cbv zeta;
          first
            [ apply preserves_check_status
            | apply preserves_lift
            | apply preserves_ret
            | apply preserves_raise
            | apply preserves_bind; [|intros ?]
            | match goal with
              | |- preserves _ _ (match ?x with _ => _ end) => destruct x
              end ]).

Lemma run_single_call
      (self : BoardShim) (op : operation) (w w1 : World H) (d : DLL) :
  get_instance H w = (Ok d, w1) ->
  allocatable self op ->
  op <> op_get_board_data ->
  snd (run H self op w) = after_call H w1 (native_request self op).
Proof.
  intros Hget Halloc Hop.
  destruct op; try congruence; unfold run; rewrite snd_bind_ret;
    cbn [native_request];
    try (unfold prepare_session, start_stream, stop_stream, release_session,
         enable_board_logger, disable_board_logger, enable_dev_board_logger,
         set_log_level;
         try destruct num_samples;
         rewrite (bind_get_instance H _ w w1 d Hget), bind_call;
         apply keeps_world; solve [neutral]).
  - destruct Halloc as [Hd Ht]. unfold get_current_board_data.
    rewrite bind_lift, (zeros_ok (zero32 H) _ Hd). cbv beta iota.
    rewrite bind_lift, (zeros_ok (zero64 H) _ Ht). cbv beta iota.
    rewrite bind_lift. change (numpy.zeros 0 1) with (Ok [0]). cbv beta iota.
    rewrite (bind_get_instance H _ w w1 d Hget), bind_call.
    apply keeps_world. neutral.
  - unfold get_board_data_count.
    rewrite bind_lift. change (numpy.zeros 0 1) with (Ok [0]). cbv beta iota.
    rewrite (bind_get_instance H _ w w1 d Hget), bind_call.
    apply keeps_world. neutral.
Qed.

(** X2. Once the library object is available and the arrays are allocated,
    an operation other than [get_board_data] makes exactly one native call,
    whatever its outcome: the log grows by that call, the native state is
    the one that call leaves, and the library object is untouched. The
    logger methods pass the levels 2, 6 and 0, [prepare_session] the board
    id and port name, [start_stream] and [get_current_board_data] their
    sample count, each integer as a 32-bit value. *)
Theorem operation_makes_its_request
        (self : BoardShim) (op : operation) (w w1 : World H) (d : DLL) :
  get_instance H w = (Ok d, w1) ->
  allocatable self op ->
  op <> op_get_board_data ->
  snd (run H self op w) = after_call H w1 (native_request self op).
Proof. exact (run_single_call self op w w1 d). Qed.

End RequestFacts.

(** ** Edge cases of the data methods *)

Lemma slice0_length_le {A : Type} (a : list A) (stop : Z) :
  (List.length (numpy.slice0 a stop) <= List.length a)%nat.
Proof.
  unfold numpy.slice0. destruct (stop <? 0); rewrite length_firstn; lia.
Qed.

Section DataEdgeFacts.

Variable H : Host.

Hypothesis STATUS_OK_zero : Enum.by_name (StreamExitCodes H) "STATUS_OK" = Some 0.

Lemma get_board_data_run
        (self : BoardShim) (w w1 : World H) (d : DLL) (k : Z) :
  constructed H self ->
  get_instance H w = (Ok d, w1) ->
  status (answer H w n_get_board_data_count) = 0 ->
  reported H (answer H w n_get_board_data_count) = k ->
  0 <= k -> k * CYTHON.package_length <= numpy.max_dim ->
  get_board_data H self w =
  (if status (answer H (after_call H w1 n_get_board_data_count)
                     (n_get_board_data (c_int k))) =? 0
   then Ok (numpy.mk_ndarray2
              (Z.to_nat k) 13
              (numpy.stack_cells (promote H) 12
                 (filled (zero32 H) (k * 12)
                    (data_written (answer H (after_call H w1 n_get_board_data_count)
                                          (n_get_board_data (c_int k)))))
                 (filled (zero64 H) k
                    (time_written (answer H (after_call H w1 n_get_board_data_count)
                                          (n_get_board_data (c_int k)))))))
   else Raise (BrainFlowError_init H "unable to get board data"
                 (status (answer H (after_call H w1 n_get_board_data_count)
                                 (n_get_board_data (c_int k))))),
   after_call H (after_call H w1 n_get_board_data_count) (n_get_board_data (c_int k))).
Proof.
  intros Hself Hget Hst Hk Hk0 Hkmax.
  destruct (constructed_fields H self Hself) as (_ & Hpl & _).
  unfold CYTHON.package_length in *. unfold numpy.max_dim in Hkmax.
  pose proof (get_board_data_count_run H STATUS_OK_zero self w w1 d Hget) as Hcount.
  rewrite Hst in Hcount. change (0 =? 0) with true in Hcount. cbv beta iota in Hcount.
  assert (Hcell : match count_written (answer H w n_get_board_data_count) with
                  | Some k0 => int64 k0 | None => 0 end = k).
  { unfold reported in Hk.
    destruct (count_written (answer H w n_get_board_data_count)) as [k0|];
      [subst k0; apply int64_small; lia|exact Hk]. }
  rewrite Hcell in Hcount.
  set (w2 := after_call H w1 n_get_board_data_count) in *.
  assert (Hd2 : dll_instance w2 = Some d)
    by (unfold w2; cbn [after_call dll_instance]; eapply get_instance_sets; eauto).
  set (c2 := n_get_board_data (c_int k)).
  unfold get_board_data. unfold bind at 1. rewrite Hcount, Hpl.
  rewrite bind_lift, (zeros_ok (zero64 H) k) by (unfold numpy.max_dim; lia).
  cbv beta iota.
  rewrite (int64_small (k * 12)) by lia.
  rewrite bind_lift, (zeros_ok (zero32 H) (k * 12)) by (unfold numpy.max_dim; lia).
  cbv beta iota.
  rewrite (bind_get_instance H _ w2 w2 d (get_instance_loaded H w2 d Hd2)), bind_call.
  fold c2.
  rewrite (bind_check_status H 0 _ _ _ _ STATUS_OK_zero).
  destruct (status (answer H w2 c2) =? 0); [|reflexivity].
  fold (filled (zero32 H) (k * 12) (data_written (answer H w2 c2))).
  fold (filled (zero64 H) k (time_written (answer H w2 c2))).
  rewrite bind_lift, reshape_ok;
    [| lia | lia | unfold filled; rewrite store_length, repeat_length; lia].
  cbv beta iota. unfold lift, numpy.column_stack.
  cbn [numpy.rows numpy.cols numpy.cells].
  unfold filled at 1. rewrite store_length, repeat_length, Nat.eqb_refl.
  reflexivity.
Qed.

(** X3. When the count call succeeds and reports [k] samples,
    [get_board_data] makes exactly one more native call, [get_board_data]
    with that same [k], in the state the count call left. If that call
    succeeds the table has [k] rows of 13 cells, filled with what the
    library wrote and zero where it wrote nothing; if it fails the method
    raises with the status of that call. *)
Theorem get_board_data_drains_reported_count
        (self : BoardShim) (w w1 : World H) (d : DLL) (k : Z) :
  constructed H self ->
  get_instance H w = (Ok d, w1) ->
  status (answer H w n_get_board_data_count) = 0 ->
  reported H (answer H w n_get_board_data_count) = k ->
  0 <= k -> k * CYTHON.package_length <= numpy.max_dim ->
  get_board_data H self w =
  (if status (answer H (after_call H w1 n_get_board_data_count)
                     (n_get_board_data (c_int k))) =? 0
   then Ok (numpy.mk_ndarray2
              (Z.to_nat k) 13
              (numpy.stack_cells (promote H) 12
                 (filled (zero32 H) (k * 12)
                    (data_written (answer H (after_call H w1 n_get_board_data_count)
                                          (n_get_board_data (c_int k)))))
                 (filled (zero64 H) k
                    (time_written (answer H (after_call H w1 n_get_board_data_count)
                                          (n_get_board_data (c_int k)))))))
   else Raise (BrainFlowError_init H "unable to get board data"
                 (status (answer H (after_call H w1 n_get_board_data_count)
                                 (n_get_board_data (c_int k))))),
   after_call H (after_call H w1 n_get_board_data_count) (n_get_board_data (c_int k))).
Proof. exact (get_board_data_run self w w1 d k). Qed.

(** X4. When the count call succeeds but the count it wrote is negative,
    [get_board_data] raises [ValueError] while allocating the timestamp
    array: the native [get_board_data] is never called, the count call is
    the only native call made. *)
Theorem get_board_data_negative_count
        (self : BoardShim) (w w1 : World H) (d : DLL) (k : Z) :
  get_instance H w = (Ok d, w1) ->
  status (answer H w n_get_board_data_count) = 0 ->
  count_written (answer H w n_get_board_data_count) = Some k ->
  int64 k < 0 ->
  get_board_data H self w =
  (Raise (ValueError "negative dimensions are not allowed"),
   after_call H w1 n_get_board_data_count).
Proof.
  intros Hget Hst Hk Hneg.
  pose proof (get_board_data_count_run H STATUS_OK_zero self w w1 d Hget) as Hcount.
  rewrite Hst, Hk in Hcount. change (0 =? 0) with true in Hcount. cbv beta iota in Hcount.
  unfold get_board_data. unfold bind at 1. rewrite Hcount.
  rewrite bind_lift, zeros_negative by exact Hneg. reflexivity.
Qed.

(** X5. When the native [get_current_board_data] succeeds but reports more
    samples than were asked for, the method raises the [ValueError] of a
    failed [reshape]: the arrays hold [n] samples and cannot be cut into
    more rows. *)
Theorem get_current_board_data_overreport
        (self : BoardShim) (n c : Z) (w w1 : World H) (d : DLL) :
  constructed H self ->
  0 <= n -> n * CYTHON.package_length <= numpy.max_dim ->
  get_instance H w = (Ok d, w1) ->
  status (answer H w (n_get_current_board_data (c_int n))) = 0 ->
  count_written (answer H w (n_get_current_board_data (c_int n))) = Some c ->
  n < int64 c ->
  get_current_board_data H self n w =
  (Raise numpy.cannot_reshape, after_call H w1 (n_get_current_board_data (c_int n))).
Proof.
  intros Hself Hn Hmax Hget Hst Hc Hover.
  destruct (constructed_fields H self Hself) as (_ & Hpl & _).
  pose proof (get_instance_frame H w) as [Hs _]. rewrite Hget in Hs. simpl in Hs.
  unfold CYTHON.package_length in *. unfold numpy.max_dim in Hmax.
  unfold get_current_board_data. rewrite Hpl.
  rewrite bind_lift, (zeros_ok (zero32 H) (n * 12)) by (unfold numpy.max_dim; lia).
  cbv beta iota.
  rewrite bind_lift, (zeros_ok (zero64 H) n) by (unfold numpy.max_dim; lia).
  cbv beta iota.
  rewrite bind_lift. change (numpy.zeros 0 1) with (Ok [0]). cbv beta iota.
  rewrite (bind_get_instance H _ w w1 d Hget), bind_call, (answer_frame H w w1 _ Hs).
  rewrite (bind_check_status H 0 _ _ _ _ STATUS_OK_zero), Hst.
  change (0 =? 0) with true. cbv beta iota.
  unfold written_int64. rewrite Hc.
  change (store [0] [int64 c]) with [int64 c]. cbv beta iota.
  set (data := store (repeat (zero32 H) (Z.to_nat (n * 12))) _).
  assert (Hdata : List.length data = Z.to_nat (n * 12))
    by (unfold data; rewrite store_length, repeat_length; reflexivity).
  pose proof (slice0_length_le data (int64 (int64 c * 12))) as Hslice.
  rewrite bind_lift. unfold numpy.reshape.
  destruct (Z.ltb_spec (int64 c) 0); [lia|].
  cbn [andb]. change (12 <? 0) with false. cbv beta iota.
  destruct (Z.eqb_spec (int64 c * 12)
              (Z.of_nat (List.length (numpy.slice0 data (int64 (int64 c * 12))))));
    [lia|reflexivity].
Qed.

(** X6. [get_immediate_board_data] returns at most one row: when the
    native call succeeds and reports zero or one sample, the result is a
    table with exactly as many rows as were reported and 13 columns; a
    single row is the first twelve values of the data array followed by the
    first timestamp, and with nothing reported the table is empty. *)
Theorem get_immediate_board_data_one_row
        (self : BoardShim) (w w1 : World H) (d : DLL) :
  constructed H self ->
  get_instance H w = (Ok d, w1) ->
  status (answer H w (n_get_current_board_data 1)) = 0 ->
  (forall k, count_written (answer H w (n_get_current_board_data 1)) = Some k ->
             0 <= k <= 1) ->
  exists m,
    fst (get_immediate_board_data H self w) = Ok (Some m) /\
    numpy.rows m = Z.to_nat (reported H (answer H w (n_get_current_board_data 1))) /\
    (numpy.rows m <= 1)%nat /\
    numpy.cols m = 13%nat /\
    (numpy.rows m = 1%nat ->
     numpy.cells m =
     map (promote H)
         (firstn 12 (filled (zero32 H) 12
                            (data_written (answer H w (n_get_current_board_data 1)))))
     ++ [nth 0 (filled (zero64 H) 1
                       (time_written (answer H w (n_get_current_board_data 1))))
             (zero64 H)]) /\
    (numpy.rows m = 0%nat -> numpy.cells m = []).
Proof.
  intros Hself Hget Hst Hrange.
  destruct (constructed_fields H self Hself) as (_ & Hpl & _).
  unfold get_immediate_board_data.
  rewrite (get_current_board_data_success H self 1 0 w w1 d Hpl);
    try assumption; try lia; try (unfold CYTHON.package_length, numpy.max_dim; lia).
  change (c_int 1) with 1.
  set (r := answer H w (n_get_current_board_data 1)) in *.
  assert (Hk : reported H r = 0 \/ reported H r = 1).
  { unfold reported. destruct (count_written r) as [k|]; [|auto].
    specialize (Hrange k eq_refl). lia. }
  set (data := filled (zero32 H) (1 * 12) (data_written r)).
  set (time := filled (zero64 H) 1 (time_written r)).
  assert (Hdata : List.length data = 12%nat)
    by (unfold data, filled; rewrite store_length, repeat_length; reflexivity).
  assert (Htime : List.length time = 1%nat)
    by (unfold time, filled; rewrite store_length, repeat_length; reflexivity).
  eexists. split; [reflexivity|]. cbn [numpy.rows numpy.cols numpy.cells].
  destruct Hk as [-> | ->]; cbn [Z.to_nat Pos.to_nat Pos.iter_op Nat.add];
    (split; [reflexivity|]).
  - split; [lia|]. split; [reflexivity|]. split; [discriminate|]. intros _.
    change (0 * 12) with 0. unfold numpy.slice0. cbn [Z.ltb Z.compare Z.to_nat firstn].
    reflexivity.
  - split; [lia|]. split; [reflexivity|]. split; [|discriminate]. intros _.
    change (1 * 12) with 12 in *. unfold numpy.slice0.
    change (12 <? 0) with false. change (1 <? 0) with false. cbv beta iota.
    change (Z.to_nat 12) with 12%nat. change (Z.to_nat 1) with 1%nat.
    destruct time as [|t [|t' time']]; try discriminate.
    change (firstn 1 [t]) with [t]. cbn [numpy.stack_cells nth].
    rewrite firstn_firstn. reflexivity.
Qed.

End DataEdgeFacts.

(** ** The library object across operations *)

Lemma bind_symbols_raise (exports names : list string) (e : exn) :
  bind_symbols exports names = Raise e ->
  exists n, e = AttributeError n /\ In n names /\ ~ In n exports.
Proof.
  induction names as [|n names IH]; simpl; [discriminate|].
  destruct (existsb (String.eqb n) exports) eqn:En.
  - intros Hr. destruct (IH Hr) as (m & He & Hin & Hout). eauto.
  - intros [= <-]. exists n. split; [reflexivity|]. split; [auto|].
    intros Hin. assert (Ht : existsb (String.eqb n) exports = true).
    { apply existsb_exists. exists n. split; [exact Hin|apply String.eqb_refl]. }
    congruence.
Qed.

Section LibraryFacts.

Variable H : Host.

Lemma get_instance_not_64 (w : World H) :
  pointer_size H * 8 <> 64 -> dll_instance w = None ->
  get_instance H w =
  (Raise (Exception "You need 64-bit python to use this library"), w).
Proof.
  intros H64 Hnone. unfold get_instance. rewrite Hnone.
  replace (pointer_size H * 8 =? 64) with false by (symmetry; apply Z.eqb_neq; exact H64).
  reflexivity.
Qed.

(** X7. On an interpreter that is not 64-bit, every public operation that
    gets as far as the library raises the exception of the size check and
    changes nothing: no library load, no native call. Only
    [get_current_board_data] can fail earlier, while allocating. *)
Theorem every_operation_needs_64_bit
        (self : BoardShim) (op : operation) (w : World H) :
  pointer_size H * 8 <> 64 ->
  dll_instance w = None ->
  allocatable self op ->
  run H self op w =
  (Raise (Exception "You need 64-bit python to use this library"), w).
Proof.
  intros H64 Hnone Halloc.
  pose proof (get_instance_not_64 w H64 Hnone) as Hget.
  destruct op; unfold run;
    try (unfold prepare_session, start_stream, stop_stream, release_session,
         enable_board_logger, disable_board_logger, enable_dev_board_logger,
         set_log_level;
         unfold bind; rewrite Hget; reflexivity).
  - destruct Halloc as [Hd Ht]. unfold get_current_board_data.
    unfold bind at 1.
    rewrite bind_lift, (zeros_ok (zero32 H) _ Hd). cbv beta iota.
    rewrite bind_lift, (zeros_ok (zero64 H) _ Ht). cbv beta iota.
    rewrite bind_lift. change (numpy.zeros 0 1) with (Ok [0]). cbv beta iota.
    unfold bind at 1. rewrite Hget. reflexivity.
  - unfold get_board_data, get_board_data_count. unfold bind at 1 2.
    rewrite bind_lift. change (numpy.zeros 0 1) with (Ok [0]). cbv beta iota.
    unfold bind at 1. rewrite Hget. reflexivity.
  - unfold get_board_data_count. unfold bind at 1.
    rewrite bind_lift. change (numpy.zeros 0 1) with (Ok [0]). cbv beta iota.
    unfold bind at 1. rewrite Hget. reflexivity.
Qed.

Lemma get_instance_load_fails (e : exn) (w : World H) :
  pointer_size H * 8 = 64 -> load_fails_with H e -> dll_instance w = None ->
  get_instance H w =
  (Raise e, {| dll_instance := None;
               load_calls := load_calls w ++ [dll_path H];
               native_state := native_state w;
               native_log := native_log w |}).
Proof.
  intros H64 Hfail Hnone. unfold get_instance. rewrite Hnone.
  replace (pointer_size H * 8 =? 64) with true by (symmetry; apply Z.eqb_eq; exact H64).
  unfold bind, BoardControllerDLL_init. rewrite Hnone. cbn [negb].
  destruct Hfail as [[Hload ->]|(exports & Hload & Hsyms)]; rewrite Hload;
    [|rewrite Hsyms]; reflexivity.
Qed.

(** X8. A failed construction of the library object is not remembered: on
    a 64-bit interpreter where the library file does not load or lacks a
    bound function, every call of [get_instance] raises that same error,
    stores no instance, and tries [LoadLibrary] again, once per call. The
    error is [OSError] or the [AttributeError] of a missing function. *)
Theorem failed_load_is_retried (e : exn) (k : nat) (w : World H) :
  pointer_size H * 8 = 64 ->
  load_fails_with H e ->
  dll_instance w = None ->
  calls H (get_instance H) k w =
  (repeat (Raise e) k,
   {| dll_instance := None;
      load_calls := load_calls w ++ repeat (dll_path H) k;
      native_state := native_state w;
      native_log := native_log w |}) /\
  (e = OSError (dll_path H) \/ exists n, e = AttributeError n /\ In n bound_symbols).
Proof.
  intros H64 Hfail Hnone. split.
  - revert w Hnone. induction k as [|k IH]; intros w Hnone.
    + simpl. rewrite app_nil_r. destruct w; simpl in *; subst; reflexivity.
    + cbn [calls]. rewrite (get_instance_load_fails e w H64 Hfail Hnone).
      rewrite IH by reflexivity. cbn [load_calls native_state native_log repeat].
      rewrite <- app_assoc. reflexivity.
  - destruct Hfail as [[_ ->]|(exports & _ & Hsyms)]; [auto|].
    right. destruct (bind_symbols_raise _ _ _ Hsyms) as (n & -> & Hin & _). eauto.
Qed.

Lemma preserves_call_library (I : World H -> Prop) (d : DLL) (c : native_call) :
  (forall w, I w -> I (after_call H w c)) ->
  preserves H I (call H d c).
Proof.
  intros HI w Hw. pose proof (HI w Hw) as Ha. unfold call, after_call, answer in *.
  destruct (native H (native_state w) c). exact Ha.
Qed.

(** X9. Once the library object exists, no operation replaces it or loads
    the library again: after any operation, and so after any history of
    operations, [get_instance] still holds the same object and the list of
    [LoadLibrary] calls is unchanged. This needs nothing of the host. *)
Theorem loaded_library_is_kept
        (ops : list (BoardShim * operation)) (w : World H) (d : DLL) :
  dll_instance w = Some d ->
  dll_instance (session H ops w) = Some d /\
  load_calls (session H ops w) = load_calls w /\
  fst (get_instance H (session H ops w)) = Ok d.
Proof.
  intros Hd.
  set (I := fun w' : World H => dll_instance w' = Some d /\ load_calls w' = load_calls w).
  assert (Hgi : preserves H I (get_instance H)).
  { intros w' [Hd' Hl']. rewrite (get_instance_loaded H w' d Hd'). split; assumption. }
  assert (Hcall : forall d' c, preserves H I (call H d' c)).
  { intros d' c. apply preserves_call_library. intros w' Hw'. exact Hw'. }
  assert (Hrun : forall self op, preserves H I (run H self op)).
  { intros self op.
    destruct op;
      unfold run, prepare_session, start_stream, stop_stream, release_session,
        get_current_board_data, get_board_data, get_board_data_count,
        enable_board_logger, disable_board_logger, enable_dev_board_logger,
        set_log_level;
      repeat (cbv zeta;
              first
                [ apply preserves_check_status
                | apply Hgi
                | apply Hcall
                | apply preserves_bind; [|intros ?]
                | apply preserves_lift
                | apply preserves_ret
                | apply preserves_raise
                | match goal with
                  | |- preserves _ _ (match ?x with _ => _ end) => destruct x
                  end ]). }
  assert (Hsession : forall ops' w', I w' -> I (session H ops' w')).
  { induction ops' as [|[self op] ops' IH]; intros w' Hw'; [exact Hw'|].
    simpl. apply IH, Hrun, Hw'. }
  destruct (Hsession ops w (conj Hd eq_refl)) as [Hd' Hl'].
  split; [exact Hd'|]. split; [exact Hl'|].
  rewrite (get_instance_loaded H _ d Hd'). reflexivity.
Qed.

(** X10. In an enumeration without aliases (no two members share a value),
    [BrainFlowError (message, code)] built from the value of a member
    carries that member's own name: the detailed message is
    [NAME:code message] and the exit code is [code]. *)
Theorem error_names_its_member (name message : string) (code : Z) :
  NoDup (map snd (StreamExitCodes H)) ->
  Enum.by_name (StreamExitCodes H) name = Some code ->
  BrainFlowError_init H message code =
  BrainFlowError (name ++ ":" ++ format_d code ++ " " ++ message)%string code.
Proof.
  intros Hnodup Hname. apply BrainFlowError_init_member.
  revert Hnodup Hname. generalize (StreamExitCodes H) as e.
  induction e as [|[n0 v0] rest IH]; simpl; [discriminate|].
  intros Hnodup. inversion Hnodup as [|v l Hnotin Hrest]; subst.
  destruct (String.eqb_spec n0 name) as [->|Hne].
  - intros [= ->]. rewrite Z.eqb_refl. reflexivity.
  - intros Hname. destruct (Z.eqb_spec v0 code) as [->|Hv]; [|apply IH; assumption].
    exfalso. apply Hnotin. clear -Hname.
    induction rest as [|[n1 v1] rest IH]; simpl in *; [discriminate|].
    destruct (String.eqb n1 name); [injection Hname as ->; auto|right; auto].
Qed.

End LibraryFacts.

(** ** Native statuses and the outcome of an operation *)


Section StatusTheorem.

Variable H : Host.

Hypothesis STATUS_OK_zero : Enum.by_name (StreamExitCodes H) "STATUS_OK" = Some 0.





End StatusTheorem.

(** ** From the constructor to the native call *)

(** X11. Constructing a [BoardShim] for board 0 and preparing its session
    hands the native [prepare_session] the board id 0 and the port name as
    the constructor stored it, that is, encoded: with the library object
    available this is the one native call made, whatever its status. *)
Theorem constructed_session_passes_encoded_port
        (H : Host) (p : py_str H) (stored : string) (w w1 : World H) (d : DLL) :
  encoded_port_name H p = Ok stored ->
  get_instance H w = (Ok d, w1) ->
  snd (bind H (BoardShim_init H 0 p) (prepare_session H) w) =
    after_call H w1 (n_prepare_session 0 stored) /\
  native_log (snd (bind H (BoardShim_init H 0 p) (prepare_session H) w)) =
    native_log w ++
    [(n_prepare_session 0 stored, answer H w (n_prepare_session 0 stored))].
Proof.
  intros Hp Hget.
  pose proof (get_instance_frame H w) as [Hs Hl]. rewrite Hget in Hs, Hl. simpl in Hs, Hl.
  assert (Hrun : snd (bind H (BoardShim_init H 0 p) (prepare_session H) w) =
                 after_call H w1 (n_prepare_session 0 stored)).
  { unfold BoardShim_init. unfold bind at 1 2. unfold lift. rewrite Hp.
    cbn [Z.eqb CYTHON.board_id ret]. cbv beta iota.
    unfold prepare_session. cbn [board_id port_name].
    rewrite (bind_get_instance H _ w w1 d Hget), bind_call.
    change (c_int 0) with 0.
    apply keeps_world, preserves_check_status. }
  split; [exact Hrun|]. rewrite Hrun. cbn [after_call native_log].
  rewrite Hl, (answer_frame H w w1 _ Hs). reflexivity.
Qed.

(** Text of code points below 128 is encoded byte for byte. *)
Lemma str_encode_ascii (text : list N) :
  Forall (fun cp => (cp < 128)%N) text ->
  str_encode text = Ok (string_of_list_ascii (map octet text)).
Proof.
  induction 1 as [|cp rest Hcp Hrest IH]; [reflexivity|].
  cbn [str_encode map string_of_list_ascii]. unfold utf8.
  rewrite (proj2 (N.ltb_lt cp 128) Hcp), IH. reflexivity.
Qed.

(** ** Concrete runs at the edges of the native behaviour *)


(** Counterexample to C8 as stated: for [n = 1] the native call returns
    [STATUS_OK] and reports five samples, and the method raises instead of
    returning a table. *)
Lemma get_current_board_data_ok_status_raises :
  1 <= 1 /\
  status (answer Synthetic.wild_host
                 (process_start Synthetic.wild_host Synthetic.two_samples)
                 (n_get_current_board_data (c_int 1))) = 0 /\
  fst (get_current_board_data Synthetic.wild_host Synthetic.shim 1
         (process_start Synthetic.wild_host Synthetic.two_samples)) =
  Raise numpy.cannot_reshape.
Proof. split; [lia|]. split; reflexivity. Qed.

(** Counterexample to C10 as stated: on a 64-bit interpreter whose library
    file lacks one bound function, three calls of [get_instance] raise
    three times and call [LoadLibrary] three times; no instance is ever
    returned. *)
Lemma get_instance_partial_library :
  pointer_size Synthetic.partial_host * 8 = 64 /\
  fst (calls Synthetic.partial_host (get_instance Synthetic.partial_host) 3
             (process_start Synthetic.partial_host Synthetic.two_samples)) =
    repeat (Raise (AttributeError "set_log_level")) 3 /\
  load_calls (snd (calls Synthetic.partial_host (get_instance Synthetic.partial_host) 3
                         (process_start Synthetic.partial_host Synthetic.two_samples))) =
    ["lib/libBoardController.so"; "lib/libBoardController.so"; "lib/libBoardController.so"].
Proof. split; [reflexivity|]. split; reflexivity. Qed.


Example synthetic_get_board_data_log :
  native_log (snd (run Synthetic.host Synthetic.shim op_get_board_data Synthetic.world)) =
  [(n_get_board_data_count, Synthetic.reply 0 [] (Some 2));
   (n_get_board_data 2,
    Synthetic.reply 0 [Synthetic.sample1; Synthetic.sample2] None)].
Proof. reflexivity. Qed.

(** ** Concrete runs for the further properties *)

Lemma constructed_session_passes_encoded_port_witness :
  encoded_port_name Synthetic.host Synthetic.port = Ok "/dev/ttyUSB0" /\
  get_instance Synthetic.host Synthetic.world = (Ok Synthetic.dll, Synthetic.loaded_world) /\
  snd (bind Synthetic.host (BoardShim_init Synthetic.host 0 Synthetic.port)
            (prepare_session Synthetic.host) Synthetic.world) =
    after_call Synthetic.host Synthetic.loaded_world (n_prepare_session 0 "/dev/ttyUSB0") /\
  native_log (snd (bind Synthetic.host (BoardShim_init Synthetic.host 0 Synthetic.port)
                        (prepare_session Synthetic.host) Synthetic.world)) =
    native_log Synthetic.world ++
    [(n_prepare_session 0 "/dev/ttyUSB0",
      answer Synthetic.host Synthetic.world (n_prepare_session 0 "/dev/ttyUSB0"))].
Proof.
  split; [reflexivity|]. split; [reflexivity|].
  apply (constructed_session_passes_encoded_port Synthetic.host Synthetic.port
           "/dev/ttyUSB0" Synthetic.world Synthetic.loaded_world Synthetic.dll);
    reflexivity.
Defined.

Lemma operation_makes_its_request_witness :
  get_instance Synthetic.host Synthetic.world = (Ok Synthetic.dll, Synthetic.loaded_world) /\
  allocatable Synthetic.shim op_disable_board_logger /\
  op_disable_board_logger <> op_get_board_data /\
  snd (run Synthetic.host Synthetic.shim op_disable_board_logger Synthetic.world) =
    after_call Synthetic.host Synthetic.loaded_world (n_set_log_level 6).
Proof.
  split; [reflexivity|]. split; [exact I|]. split; [discriminate|].
  apply (operation_makes_its_request Synthetic.host Synthetic.shim op_disable_board_logger
           Synthetic.world Synthetic.loaded_world Synthetic.dll).
  - reflexivity.
  - exact I.
  - discriminate.
Defined.

Lemma get_board_data_drains_reported_count_witness :
  Enum.by_name (StreamExitCodes Synthetic.host) "STATUS_OK" = Some 0 /\
  constructed Synthetic.host Synthetic.shim /\
  get_instance Synthetic.host Synthetic.world = (Ok Synthetic.dll, Synthetic.loaded_world) /\
  status (answer Synthetic.host Synthetic.world n_get_board_data_count) = 0 /\
  reported Synthetic.host (answer Synthetic.host Synthetic.world n_get_board_data_count) = 2 /\
  0 <= 2 /\
  2 * CYTHON.package_length <= numpy.max_dim /\
  get_board_data Synthetic.host Synthetic.shim Synthetic.world =
    (Ok Synthetic.table,
     after_call Synthetic.host
       (after_call Synthetic.host Synthetic.loaded_world n_get_board_data_count)
       (n_get_board_data 2)).
Proof.
  assert (Hmax : 2 * CYTHON.package_length <= numpy.max_dim)
    by (unfold CYTHON.package_length, numpy.max_dim; lia).
  split; [reflexivity|]. split; [exact synthetic_shim_constructed|].
  split; [reflexivity|]. split; [reflexivity|]. split; [reflexivity|].
  split; [lia|]. split; [exact Hmax|].
  apply (get_board_data_drains_reported_count Synthetic.host eq_refl Synthetic.shim
           Synthetic.world Synthetic.loaded_world Synthetic.dll 2
           synthetic_shim_constructed eq_refl eq_refl eq_refl ltac:(lia) Hmax).
Defined.

Lemma get_board_data_negative_count_witness :
  Enum.by_name (StreamExitCodes Synthetic.wild_host) "STATUS_OK" = Some 0 /\
  get_instance Synthetic.wild_host (process_start Synthetic.wild_host Synthetic.two_samples) =
    (Ok Synthetic.dll,
     Build_World Synthetic.wild_host (Some Synthetic.dll) ["lib/libBoardController.so"]
                 Synthetic.two_samples []) /\
  status (answer Synthetic.wild_host (process_start Synthetic.wild_host Synthetic.two_samples)
                 n_get_board_data_count) = 0 /\
  count_written (answer Synthetic.wild_host
                        (process_start Synthetic.wild_host Synthetic.two_samples)
                        n_get_board_data_count) = Some (-1) /\
  int64 (-1) < 0 /\
  get_board_data Synthetic.wild_host Synthetic.shim
                 (process_start Synthetic.wild_host Synthetic.two_samples) =
    (Raise (ValueError "negative dimensions are not allowed"),
     after_call Synthetic.wild_host
       (Build_World Synthetic.wild_host (Some Synthetic.dll) ["lib/libBoardController.so"]
                    Synthetic.two_samples [])
       n_get_board_data_count).
Proof.
  split; [reflexivity|]. split; [reflexivity|]. split; [reflexivity|].
  split; [reflexivity|]. split; [reflexivity|].
  apply (get_board_data_negative_count Synthetic.wild_host eq_refl Synthetic.shim
           (process_start Synthetic.wild_host Synthetic.two_samples)
           (Build_World Synthetic.wild_host (Some Synthetic.dll) ["lib/libBoardController.so"]
                        Synthetic.two_samples [])
           Synthetic.dll (-1)); reflexivity.
Defined.

Lemma wild_shim_constructed : constructed Synthetic.wild_host Synthetic.shim.
Proof.
  exists 0, Synthetic.port, (process_start Synthetic.wild_host Synthetic.two_samples).
  reflexivity.
Qed.

Lemma get_current_board_data_overreport_witness :
  Enum.by_name (StreamExitCodes Synthetic.wild_host) "STATUS_OK" = Some 0 /\
  constructed Synthetic.wild_host Synthetic.shim /\
  0 <= 1 /\
  1 * CYTHON.package_length <= numpy.max_dim /\
  get_instance Synthetic.wild_host (process_start Synthetic.wild_host Synthetic.two_samples) =
    (Ok Synthetic.dll,
     Build_World Synthetic.wild_host (Some Synthetic.dll) ["lib/libBoardController.so"]
                 Synthetic.two_samples []) /\
  status (answer Synthetic.wild_host (process_start Synthetic.wild_host Synthetic.two_samples)
                 (n_get_current_board_data (c_int 1))) = 0 /\
  count_written (answer Synthetic.wild_host
                        (process_start Synthetic.wild_host Synthetic.two_samples)
                        (n_get_current_board_data (c_int 1))) = Some 5 /\
  1 < int64 5 /\
  get_current_board_data Synthetic.wild_host Synthetic.shim 1
                         (process_start Synthetic.wild_host Synthetic.two_samples) =
    (Raise numpy.cannot_reshape,
     after_call Synthetic.wild_host
       (Build_World Synthetic.wild_host (Some Synthetic.dll) ["lib/libBoardController.so"]
                    Synthetic.two_samples [])
       (n_get_current_board_data (c_int 1))).
Proof.
  assert (Hmax : 1 * CYTHON.package_length <= numpy.max_dim)
    by (unfold CYTHON.package_length, numpy.max_dim; lia).
  split; [reflexivity|]. split; [exact wild_shim_constructed|]. split; [lia|].
  split; [exact Hmax|]. split; [reflexivity|]. split; [reflexivity|].
  split; [reflexivity|]. split; [reflexivity|].
  apply (get_current_board_data_overreport Synthetic.wild_host eq_refl Synthetic.shim 1 5
           (process_start Synthetic.wild_host Synthetic.two_samples)
           (Build_World Synthetic.wild_host (Some Synthetic.dll) ["lib/libBoardController.so"]
                        Synthetic.two_samples [])
           Synthetic.dll wild_shim_constructed ltac:(lia) Hmax);
    reflexivity.
Defined.

Lemma get_immediate_board_data_one_row_witness :
  Enum.by_name (StreamExitCodes Synthetic.host) "STATUS_OK" = Some 0 /\
  constructed Synthetic.host Synthetic.shim /\
  get_instance Synthetic.host Synthetic.world = (Ok Synthetic.dll, Synthetic.loaded_world) /\
  status (answer Synthetic.host Synthetic.world (n_get_current_board_data 1)) = 0 /\
  (forall k,
      count_written (answer Synthetic.host Synthetic.world (n_get_current_board_data 1)) = Some k ->
      0 <= k <= 1) /\
  exists m,
    fst (get_immediate_board_data Synthetic.host Synthetic.shim Synthetic.world) = Ok (Some m) /\
    numpy.rows m =
      Z.to_nat (reported Synthetic.host
                  (answer Synthetic.host Synthetic.world (n_get_current_board_data 1))) /\
    (numpy.rows m <= 1)%nat /\
    numpy.cols m = 13%nat /\
    (numpy.rows m = 1%nat ->
     numpy.cells m =
     map (promote Synthetic.host)
         (firstn 12 (filled (zero32 Synthetic.host) 12
                            (data_written (answer Synthetic.host Synthetic.world
                                                  (n_get_current_board_data 1)))))
     ++ [nth 0 (filled (zero64 Synthetic.host) 1
                       (time_written (answer Synthetic.host Synthetic.world
                                             (n_get_current_board_data 1))))
             (zero64 Synthetic.host)]) /\
    (numpy.rows m = 0%nat -> numpy.cells m = []).
Proof.
  assert (Hrange : forall k,
             count_written (answer Synthetic.host Synthetic.world (n_get_current_board_data 1)) = Some k ->
             0 <= k <= 1)
    by (intros k Hk; change (Some 1 = Some k) in Hk; injection Hk as <-; lia).
  split; [reflexivity|]. split; [exact synthetic_shim_constructed|].
  split; [reflexivity|]. split; [reflexivity|]. split; [exact Hrange|].
  apply (get_immediate_board_data_one_row Synthetic.host eq_refl Synthetic.shim
           Synthetic.world Synthetic.loaded_world Synthetic.dll
           synthetic_shim_constructed eq_refl eq_refl Hrange).
Defined.

Example synthetic_immediate_is_the_latest_sample :
  fst (get_immediate_board_data Synthetic.host Synthetic.shim Synthetic.world) =
  Ok (Some (numpy.mk_ndarray2 1 13
              [201; 202; 203; 204; 205; 206; 207; 208; 209; 210; 211; 212; 1002])).
Proof. reflexivity. Qed.

Lemma every_operation_needs_64_bit_witness :
  pointer_size Synthetic.host32 * 8 <> 64 /\
  dll_instance (process_start Synthetic.host32 Synthetic.two_samples) = None /\
  allocatable Synthetic.shim (op_get_current_board_data 3) /\
  run Synthetic.host32 Synthetic.shim (op_get_current_board_data 3)
      (process_start Synthetic.host32 Synthetic.two_samples) =
    (Raise (Exception "You need 64-bit python to use this library"),
     process_start Synthetic.host32 Synthetic.two_samples).
Proof.
  assert (Halloc : allocatable Synthetic.shim (op_get_current_board_data 3))
    by (unfold allocatable, numpy.max_dim; cbn [package_length Synthetic.shim];
        unfold CYTHON.package_length; lia).
  split; [discriminate|]. split; [reflexivity|]. split; [exact Halloc|].
  apply (every_operation_needs_64_bit Synthetic.host32 Synthetic.shim
           (op_get_current_board_data 3)
           (process_start Synthetic.host32 Synthetic.two_samples)).
  - discriminate.
  - reflexivity.
  - exact Halloc.
Defined.

Lemma failed_load_is_retried_witness :
  pointer_size Synthetic.bare_host * 8 = 64 /\
  load_fails_with Synthetic.bare_host (OSError "lib\BoardController.dll") /\
  dll_instance (process_start Synthetic.bare_host Synthetic.two_samples) = None /\
  calls Synthetic.bare_host (get_instance Synthetic.bare_host) 2
        (process_start Synthetic.bare_host Synthetic.two_samples) =
    (repeat (Raise (OSError "lib\BoardController.dll")) 2,
     {| dll_instance := None;
        load_calls := load_calls (process_start Synthetic.bare_host Synthetic.two_samples)
                      ++ repeat (dll_path Synthetic.bare_host) 2;
        native_state := native_state (process_start Synthetic.bare_host Synthetic.two_samples);
        native_log := native_log (process_start Synthetic.bare_host Synthetic.two_samples) |}) /\
  (OSError "lib\BoardController.dll" = OSError (dll_path Synthetic.bare_host) \/
   exists n, OSError "lib\BoardController.dll" = AttributeError n /\ In n bound_symbols).
Proof.
  assert (Hfail : load_fails_with Synthetic.bare_host (OSError "lib\BoardController.dll"))
    by (left; split; reflexivity).
  split; [reflexivity|]. split; [exact Hfail|]. split; [reflexivity|].
  apply (failed_load_is_retried Synthetic.bare_host (OSError "lib\BoardController.dll") 2
           (process_start Synthetic.bare_host Synthetic.two_samples)).
  - reflexivity.
  - exact Hfail.
  - reflexivity.
Defined.

Lemma loaded_library_is_kept_witness :
  dll_instance Synthetic.loaded_world = Some Synthetic.dll /\
  dll_instance (session Synthetic.host
                        [(Synthetic.shim, op_get_board_data); (Synthetic.shim, op_stop_stream)]
                        Synthetic.loaded_world) = Some Synthetic.dll /\
  load_calls (session Synthetic.host
                      [(Synthetic.shim, op_get_board_data); (Synthetic.shim, op_stop_stream)]
                      Synthetic.loaded_world) = load_calls Synthetic.loaded_world /\
  fst (get_instance Synthetic.host
         (session Synthetic.host
                  [(Synthetic.shim, op_get_board_data); (Synthetic.shim, op_stop_stream)]
                  Synthetic.loaded_world)) = Ok Synthetic.dll.
Proof.
  split; [reflexivity|].
  apply (loaded_library_is_kept Synthetic.host
           [(Synthetic.shim, op_get_board_data); (Synthetic.shim, op_stop_stream)]
           Synthetic.loaded_world Synthetic.dll).
  reflexivity.
Defined.

Lemma synthetic_exit_codes_distinct :
  NoDup (map snd (StreamExitCodes Synthetic.host)).
Proof.
  cbn [map snd StreamExitCodes Synthetic.host Synthetic.exit_codes].
  repeat (constructor; [cbn [In]; intuition discriminate|]). constructor.
Qed.

Lemma error_names_its_member_witness :
  NoDup (map snd (StreamExitCodes Synthetic.host)) /\
  Enum.by_name (StreamExitCodes Synthetic.host) "UNSUPPORTED_BOARD_ERROR" = Some 14 /\
  BrainFlowError_init Synthetic.host "unsupported board type" 14 =
    BrainFlowError ("UNSUPPORTED_BOARD_ERROR" ++ ":" ++ format_d 14 ++ " "
                    ++ "unsupported board type")%string 14.
Proof.
  split; [exact synthetic_exit_codes_distinct|]. split; [reflexivity|].
  apply (error_names_its_member Synthetic.host "UNSUPPORTED_BOARD_ERROR"
           "unsupported board type" 14).
  - exact synthetic_exit_codes_distinct.
  - reflexivity.
Defined.
